(** * PLATE-VS client and bulk downloader

    A shallow embedding of [platevs_client.py] (class [PlateVSClient]: the
    two similarity-matrix downloads and the status probe) and of
    [download_all_data.py] (function [main]), with the properties of the
    bulk run.  The search methods of the client take no part in the bulk
    run and are left out.

    The program is a sequence of effects: HTTP requests through
    [requests.Session.get], writes of files under the output directory,
    lines printed on the standard output and calls of [time.sleep].  All of
    them are threaded through an explicit state that records a chronological
    trace of events.  The answers of the remote service are an arbitrary
    function of the request and of its position in the run.  The wall clock
    ([time.time]) is not modelled: a pause is the event of its call, with
    its duration, and the elapsed time of the summary is a line without a
    value. *)

From Stdlib Require Import ZArith List Ascii String PrimFloat Lia.
From stdpp Require Import base decidable option list strings pretty gmap.

#[local] Set Warnings "-inexact-float".

Local Open Scope string_scope.
Local Open Scope list_scope.
Local Open Scope Z_scope.

(** ** Python values that reach the HTTP layer *)

(** A threshold is a Python float (an IEEE 754 binary64 number, the kernel's
    primitive [float]); a coverage level is a Python integer. *)
Inductive pyval : Type :=
  | PyInt (z : Z)
  | PyFloat (x : float).

(** ** pathlib paths *)

(** [s.split("/")]. *)
Fixpoint pieces (s : string) : list string :=
  match s with
  | EmptyString => [EmptyString]
  | String c s' =>
      if Ascii.eqb c "/" then EmptyString :: pieces s'
      else match pieces s' with
           | p :: ps => String c p :: ps
           | [] => [String c EmptyString]
           end
  end.

Definition kept_piece (p : string) : bool :=
  negb (String.eqb p "") && negb (String.eqb p ".").

(** A [pathlib.Path] by its parts: empty pieces and ["."] pieces vanish when
    a path is parsed, a leading separator is the part ["/"]. *)
Definition Path : Type := list string.

Definition is_absolute (s : string) : bool :=
  match s with
  | String c _ => Ascii.eqb c "/"
  | EmptyString => false
  end.

Definition Path_of (s : string) : Path :=
  (if is_absolute s then ["/"] else []) ++ filter (fun p => Is_true (kept_piece p)) (pieces s).

(** [p / name]: an absolute right operand replaces the left one. *)
Definition truediv (p : Path) (name : string) : Path :=
  if is_absolute name then Path_of name else p ++ Path_of name.

(** ** The requests library, as the client uses it *)

(** The keyword arguments of [session.get] that the client passes.  A GET
    follows redirects unless told otherwise; the client never turns that
    off. *)
Record request : Type := mkRequest {
  url : string;
  params : list (string * pyval);
  timeout : Z;
  allow_redirects : bool
}.

(** The final response, after the library has followed the redirects. *)
Record Response : Type := mkResponse {
  status_code : Z;
  content : list Byte.byte
}.

(** What [session.get] itself raises: subclasses of
    [requests.exceptions.RequestException]. *)
Inductive transport_error : Type :=
  | ConnectionError
  | Timeout
  | TooManyRedirects
  | ChunkedEncodingError.

(** [requests.exceptions.RequestException]: the transport errors, and the
    [HTTPError] of [Response.raise_for_status]. *)
Inductive RequestException : Type :=
  | Transport (e : transport_error)
  | HTTPError (status : Z).

(** ** Lines of the standard output *)

(** One constructor per kind of [print] call, carrying the interpolated
    values.  The elapsed wall-clock time is outside the model. *)
Inductive output : Type :=
  | Rule (n : nat)
  | NewlineRule (n : nat)
  | Text (s : string)
  | OutputDirectory (d : string)
  | ThresholdsLine (l : list float)
  | QcovLevelsLine (l : list Z)
  | ProcessingQcov (q : Z)
  | DownloadingCsv (t : float)
  | DownloadingSdf (t : float)
  | Done
  | Failed
  | WarnQcov (q : Z) (standard : list Z)
  | DownloadedCsv (p : Path)
  | ErrorCsv (e : RequestException)
  | DownloadedSdf (p : Path)
  | ErrorSdf (e : RequestException)
  | TimeElapsed
  | CsvsDownloaded (n total : nat)
  | SdfsDownloaded (n total : nat)
  | DataSavedTo (d : Path).

(** ** Events and state *)

Inductive event : Type :=
  | EvGet (r : request)
  | EvWrite (p : Path) (data : list Byte.byte)
  | EvPrint (o : output)
  | EvSleep (seconds : float).

(** [sent] counts the requests issued so far, [fs] maps the path of every
    regular file to its bytes, [trace] lists the events, oldest first. *)
Record state : Type := mkState {
  sent : nat;
  fs : gmap Path (list Byte.byte);
  trace : list event
}.

Definition init_state (fs0 : gmap Path (list Byte.byte)) : state :=
  {| sent := 0; fs := fs0; trace := [] |}.

(** ** A state monad with exceptions *)

Inductive outcome (A : Type) : Type :=
  | Ret (a : A)
  | Raise (e : RequestException).
Arguments Ret {A} a.
Arguments Raise {A} e.

Definition M (A : Type) : Type := state -> outcome A * state.

Definition ret {A} (a : A) : M A := fun s => (Ret a, s).

Definition raise {A} (e : RequestException) : M A := fun s => (Raise e, s).

Definition bind {A B} (m : M A) (k : A -> M B) : M B :=
  fun s =>
    match m s with
    | (Ret a, s') => k a s'
    | (Raise e, s') => (Raise e, s')
    end.

(** [try: body except requests.exceptions.RequestException as e: handler]. *)
Definition try_except {A} (body : M A) (handler : RequestException -> M A) : M A :=
  fun s =>
    match body s with
    | (Ret a, s') => (Ret a, s')
    | (Raise e, s') => handler e s'
    end.

Declare Scope py_scope.
Delimit Scope py_scope with py.
Notation "'let!' x ':=' m 'in' k" := (bind m (fun x => k))
  (at level 10, x name, m at level 100, k at level 200) : py_scope.
Notation "m '>>' k" := (bind m (fun _ => k))
  (at level 100, k at level 200, right associativity) : py_scope.
Local Open Scope py_scope.

Definition emit (e : event) (s : state) : state :=
  {| sent := sent s; fs := fs s; trace := trace s ++ [e] |}.

Definition print (o : output) : M unit := fun s => (Ret tt, emit (EvPrint o) s).

Definition sleep (seconds : float) : M unit := fun s => (Ret tt, emit (EvSleep seconds) s).

(** [with open(filepath, 'wb') as f: f.write(data)]: the file is created or
    truncated, then holds [data].  The output directory exists (the
    constructor has made it) and the write goes through. *)
Definition write_file (p : Path) (data : list Byte.byte) : M unit :=
  fun s => (Ret tt, {| sent := sent s; fs := <[p := data]> (fs s); trace := trace s ++ [EvWrite p data] |}).

(** [for x in l: acc = body(acc, x)]. *)
Fixpoint for_each {A B} (l : list A) (body : B -> A -> M B) (acc : B) : M B :=
  match l with
  | [] => ret acc
  | x :: l' => let! acc' := body acc x in for_each l' body acc'
  end.

(** [Response.raise_for_status]: an [HTTPError] for the client-error and
    server-error statuses 400 to 599, nothing for any other status. *)
Definition is_error_status (status : Z) : bool :=
  (400 <=? status) && (status <? 600).

Definition raise_for_status (r : Response) : M unit :=
  if is_error_status (status_code r) then raise (HTTPError (status_code r)) else ret tt.

(** ** class PlateVSClient *)

Definition BASE_URL : string := "https://www.drugbench.org".
Definition API_URL : string := BASE_URL +:+ "/api".
Definition QCOV_LEVELS : list Z := [50; 70; 95; 100].

Record PlateVSClient : Type := mkClient {
  self_timeout : Z;
  output_dir : Path
}.

(** [PlateVSClient(timeout=30, output_dir=...)].  The constructor also makes
    the output directory and opens the HTTP session; directories and the
    session headers are not part of the state. *)
Definition new_client (timeout : Z) (output_dir : string) : PlateVSClient :=
  {| self_timeout := timeout; output_dir := Path_of output_dir |}.

Section Service.

(** The remote service and the network: the answer to the [n]-th request
    of the run, a final response or a transport error. *)
Variable net : nat -> request -> Response + transport_error.

(** [str] of a float, as the f-strings of the file names use it. *)
Variable float_str : float -> string.

Definition session_get (r : request) : M Response :=
  fun s =>
    let s' := {| sent := S (sent s); fs := fs s; trace := trace s ++ [EvGet r] |} in
    match net (sent s) r with
    | inl resp => (Ret resp, s')
    | inr e => (Raise (Transport e), s')
    end.

Definition csv_request (self : PlateVSClient) (similarity_threshold : float) (qcov_level : Z) : request :=
  {| url := API_URL +:+ "/similarity-matrix/download-uniprot";
     params := [("threshold", PyFloat similarity_threshold); ("qcov_level", PyInt qcov_level)];
     timeout := self_timeout self;
     allow_redirects := true |}.

Definition csv_filename (similarity_threshold : float) (qcov_level : Z) : string :=
  "similarity_matrix_qcov" +:+ pretty qcov_level +:+ "_threshold_"
    +:+ float_str similarity_threshold +:+ ".csv".

Definition download_similarity_matrix_csv (self : PlateVSClient)
    (similarity_threshold : float) (qcov_level : Z) : M (option Path) :=
  (if bool_decide (qcov_level ∈ QCOV_LEVELS) then ret tt
   else print (WarnQcov qcov_level QCOV_LEVELS)) >>
  try_except
    (let! response := session_get (csv_request self similarity_threshold qcov_level) in
     raise_for_status response >>
     let filename := csv_filename similarity_threshold qcov_level in
     let filepath := truediv (output_dir self) filename in
     write_file filepath (content response) >>
     print (DownloadedCsv filepath) >>
     ret (Some filepath))
    (fun e => print (ErrorCsv e) >> ret None).

Definition sdf_request (self : PlateVSClient) (similarity_threshold : float) : request :=
  {| url := API_URL +:+ "/similarity-matrix/download-sdf";
     params := [("threshold", PyFloat similarity_threshold)];
     timeout := self_timeout self;
     allow_redirects := true |}.

Definition sdf_filename (similarity_threshold : float) : string :=
  "similarity_sdf_threshold_" +:+ float_str similarity_threshold +:+ ".tar.gz".

Definition download_similarity_sdf (self : PlateVSClient)
    (similarity_threshold : float) : M (option Path) :=
  try_except
    (let! response := session_get (sdf_request self similarity_threshold) in
     raise_for_status response >>
     let zip_filename := sdf_filename similarity_threshold in
     let zip_filepath := truediv (output_dir self) zip_filename in
     write_file zip_filepath (content response) >>
     print (DownloadedSdf zip_filepath) >>
     ret (Some zip_filepath))
    (fun e => print (ErrorSdf e) >> ret None).

Definition probe_request (url : string) : request :=
  {| url := url; params := []; timeout := 10; allow_redirects := true |}.

Definition endpoints : list (string * string) :=
  [("main", BASE_URL); ("api", API_URL +:+ "/health")].

Definition check_service_status (self : PlateVSClient) : M (gmap string bool) :=
  for_each endpoints
    (fun (status : gmap string bool) '(name, url) =>
       try_except
         (let! response := session_get (probe_request url) in
          ret (<[name := Z.eqb (status_code response) 200]> status))
         (fun _ => ret (<[name := false]> status)))
    ∅.

(** ** download_all_data.py *)

(** One turn of the inner loop of phase 1; [csv_count] is the counter of
    the enclosing function.  A [Path] is truthy, [None] is not. *)
Definition csv_body (client : PlateVSClient) (qcov : Z) (csv_count : nat)
    (threshold : float) : M nat :=
  print (DownloadingCsv threshold) >>
  let! path := download_similarity_matrix_csv client threshold qcov in
  let! csv_count :=
    match path with
    | Some _ => print Done >> ret (S csv_count)
    | None => print Failed >> ret csv_count
    end in
  sleep 0.5 >>
  ret csv_count.

Definition csv_phase (client : PlateVSClient) (THRESHOLDS : list float)
    (QCOV_LEVELS : list Z) : M nat :=
  for_each QCOV_LEVELS
    (fun csv_count qcov =>
       print (ProcessingQcov qcov) >>
       for_each THRESHOLDS (csv_body client qcov) csv_count)
    0%nat.

(** One turn of the loop of phase 2. *)
Definition sdf_body (client : PlateVSClient) (sdf_count : nat)
    (threshold : float) : M nat :=
  print (DownloadingSdf threshold) >>
  let! path := download_similarity_sdf client threshold in
  let! sdf_count :=
    match path with
    | Some _ => print Done >> ret (S sdf_count)
    | None => print Failed >> ret sdf_count
    end in
  sleep 1.0 >>
  ret sdf_count.

Definition sdf_phase (client : PlateVSClient) (THRESHOLDS : list float) : M nat :=
  for_each THRESHOLDS (sdf_body client) 0%nat.

(** The body of [main], with its three configuration constants as
    parameters. *)
Definition main_with (OUTPUT_DIR : string) (THRESHOLDS : list float)
    (QCOV_LEVELS : list Z) : M unit :=
  print (Rule 60) >>
  print (Text "PLATE-VS Bulk Downloader") >>
  print (Rule 60) >>
  print (OutputDirectory OUTPUT_DIR) >>
  print (ThresholdsLine THRESHOLDS) >>
  print (QcovLevelsLine QCOV_LEVELS) >>
  let client := new_client 30 OUTPUT_DIR in
  print (Text (String "010" "Checking service status...")) >>
  let! status := check_service_status client in
  if negb (default false (status !! "main")) then
    print (Text "Error: Main website is not reachable. Aborting.")
  else
    print (NewlineRule 40) >>
    print (Text "Phase 1: Downloading Similarity Matrix CSVs") >>
    print (Rule 40) >>
    let! csv_count := csv_phase client THRESHOLDS QCOV_LEVELS in
    print (NewlineRule 40) >>
    print (Text "Phase 2: Downloading SDF Archives") >>
    print (Rule 40) >>
    let! sdf_count := sdf_phase client THRESHOLDS in
    print (NewlineRule 60) >>
    print (Text "Download Complete") >>
    print (Rule 60) >>
    print TimeElapsed >>
    print (CsvsDownloaded csv_count (length THRESHOLDS * length QCOV_LEVELS)%nat) >>
    print (SdfsDownloaded sdf_count (length THRESHOLDS)) >>
    print (DataSavedTo (Path_of OUTPUT_DIR)).

Definition OUTPUT_DIR : string := "./platevs_full_dataset".
Definition THRESHOLDS : list float := [0.0; 0.1; 0.3; 0.5; 0.7; 0.9]%float.

Definition main : M unit := main_with OUTPUT_DIR THRESHOLDS [50; 70; 95; 100].

(** ** Observations on runs *)

(** What a download gets from the [n]-th request [r] of the run: the
    response that [raise_for_status] lets through, or the exception that
    reaches the [except] clause. *)
Definition fetch (n : nat) (r : request) : Response + RequestException :=
  match net n r with
  | inl resp =>
      if is_error_status (status_code resp) then inr (HTTPError (status_code resp))
      else inl resp
  | inr e => inr (Transport e)
  end.

Definition fetch_ok (n : nat) (r : request) : bool :=
  match fetch n r with inl _ => true | inr _ => false end.

(** The number of requests of [reqs], issued as the [n]-th and following
    requests of the run, whose fetch goes through. *)
Fixpoint succeeded (n : nat) (reqs : list request) : nat :=
  match reqs with
  | [] => 0%nat
  | r :: reqs' => ((if fetch_ok n r then 1 else 0) + succeeded (S n) reqs')%nat
  end.

(** What the status probe reports for the [n]-th request, sent to [u]. *)
Definition reachable (n : nat) (u : string) : bool :=
  match net n (probe_request u) with
  | inl resp => Z.eqb (status_code resp) 200
  | inr _ => false
  end.

Definition warning (qcov_level : Z) : list event :=
  if bool_decide (qcov_level ∈ QCOV_LEVELS) then []
  else [EvPrint (WarnQcov qcov_level QCOV_LEVELS)].

Definition csv_path (self : PlateVSClient) (t : float) (q : Z) : Path :=
  truediv (output_dir self) (csv_filename t q).

Definition sdf_path (self : PlateVSClient) (t : float) : Path :=
  truediv (output_dir self) (sdf_filename t).

(** The matrix tasks of a run, coverage level first, and their requests. *)
Definition matrix_tasks (THRESHOLDS : list float) (QCOV_LEVELS : list Z) : list (Z * float) :=
  list_prod QCOV_LEVELS THRESHOLDS.

Definition csv_requests (client : PlateVSClient) (tasks : list (Z * float)) : list request :=
  map (fun '(q, t) => csv_request client t q) tasks.

Definition sdf_requests (client : PlateVSClient) (THRESHOLDS : list float) : list request :=
  map (sdf_request client) THRESHOLDS.

(** Phase 1 up to a point of its run: the rows of the coverage levels
    [done_levels] in full, then the tasks of the thresholds [done_thresholds]
    in the row of [qcov]. *)
Definition csv_progress (client : PlateVSClient) (THRESHOLDS : list float)
    (done_levels : list Z) (qcov : Z) (done_thresholds : list float) : M nat :=
  let! csv_count := csv_phase client THRESHOLDS done_levels in
  print (ProcessingQcov qcov) >>
  for_each done_thresholds (csv_body client qcov) csv_count.

End Service.

(** Projections of a trace. *)
Definition get_of (e : event) : option request :=
  match e with EvGet r => Some r | _ => None end.

Definition sleep_of (e : event) : option float :=
  match e with EvSleep d => Some d | _ => None end.

Definition print_of (e : event) : option output :=
  match e with EvPrint o => Some o | _ => None end.

Definition write_of (e : event) : option (Path * list Byte.byte) :=
  match e with EvWrite p d => Some (p, d) | _ => None end.

Definition requests_of (tr : list event) : list request := omap get_of tr.
Definition sleeps_of (tr : list event) : list float := omap sleep_of tr.
Definition prints_of (tr : list event) : list output := omap print_of tr.
Definition writes_of (tr : list event) : list (Path * list Byte.byte) := omap write_of tr.

(** The requests and pauses of a trace, in order. *)
Definition paced (e : event) : bool :=
  match e with EvGet _ | EvSleep _ => true | _ => false end.

Definition pacing_of (tr : list event) : list event :=
  List.filter paced tr.

(** A loop body that runs one task: one request [req x], a pause, and the
    counter advanced when the fetch went through. *)
Definition task_step (net : nat -> request -> Response + transport_error) {A}
    (req : A -> request) (pause : float) (body : nat -> A -> M nat) : Prop :=
  forall c x s, exists evs fs',
    body c x s = (Ret (if fetch_ok net (sent s) (req x) then S c else c),
                  {| sent := S (sent s); fs := fs'; trace := trace s ++ evs |})
    /\ pacing_of evs = [EvGet (req x); EvSleep pause].

(** A run of tasks that is paced by [pause]: each request, then the pause. *)
Definition paced_schedule (pause : float) (reqs : list request) : list event :=
  flat_map (fun r => [EvGet r; EvSleep pause]) reqs.

(** The lines at both ends of the output of [main]. *)
Definition header (OUTPUT_DIR : string) (THRESHOLDS : list float) (QCOV_LEVELS : list Z) : list output :=
  [ Rule 60; Text "PLATE-VS Bulk Downloader"; Rule 60; OutputDirectory OUTPUT_DIR;
    ThresholdsLine THRESHOLDS; QcovLevelsLine QCOV_LEVELS;
    Text (String "010" "Checking service status...") ].

Definition summary (OUTPUT_DIR : string) (THRESHOLDS : list float) (QCOV_LEVELS : list Z)
    (csv_count sdf_count : nat) : list output :=
  [ NewlineRule 60; Text "Download Complete"; Rule 60; TimeElapsed;
    CsvsDownloaded csv_count (length THRESHOLDS * length QCOV_LEVELS)%nat;
    SdfsDownloaded sdf_count (length THRESHOLDS);
    DataSavedTo (Path_of OUTPUT_DIR) ].

Definition phase1_banner : list output :=
  [ NewlineRule 40; Text "Phase 1: Downloading Similarity Matrix CSVs"; Rule 40 ].

Definition phase2_banner : list output :=
  [ NewlineRule 40; Text "Phase 2: Downloading SDF Archives"; Rule 40 ].

Definition probes : list request :=
  [ probe_request BASE_URL; probe_request (API_URL +:+ "/health") ].

(** A summary line: one of the lines that [main] prints after phase 2. *)
Definition is_summary (o : output) : bool :=
  match o with
  | TimeElapsed | CsvsDownloaded _ _ | SdfsDownloaded _ _ | DataSavedTo _ => true
  | Text s => String.eqb s "Download Complete"
  | _ => false
  end.

(** The trace of a whole run of the bulk downloader, from a file system
    [fs0] and an empty trace. *)
Definition run_trace (net : nat -> request -> Response + transport_error)
    (float_str : float -> string) (OUTPUT_DIR : string) (THRESHOLDS : list float)
    (QCOV_LEVELS : list Z) (fs0 : gmap Path (list Byte.byte)) : list event :=
  trace (snd (main_with net float_str OUTPUT_DIR THRESHOLDS QCOV_LEVELS (init_state fs0))).

(** ** Sample services *)

(** [str] on the floats that the configuration of [main] holds. *)
Definition str_threshold (x : float) : string :=
  if (x =? 0.0)%float then "0.0"
  else if (x =? 0.1)%float then "0.1"
  else if (x =? 0.3)%float then "0.3"
  else if (x =? 0.5)%float then "0.5"
  else if (x =? 0.7)%float then "0.7"
  else if (x =? 0.9)%float then "0.9"
  else "nan".

Definition sample_body : list Byte.byte := [Byte.x61; Byte.x2c; Byte.x62; Byte.x0a].

(** Every request is answered 200 with a short body. *)
Definition net_up : nat -> request -> Response + transport_error :=
  fun _ _ => inl {| status_code := 200; content := sample_body |}.

(** No connection can be made. *)
Definition net_unreachable : nat -> request -> Response + transport_error :=
  fun _ _ => inr ConnectionError.


(** The main site is up, the health probe of the API times out, downloads
    are served. *)
Definition net_api_down : nat -> request -> Response + transport_error :=
  fun n _ =>
    if (n =? 1)%nat then inr Timeout
    else inl {| status_code := 200; content := sample_body |}.

(** The site answers the probes; after them every other request is served
    and every other one is answered 503. *)
Definition net_flaky : nat -> request -> Response + transport_error :=
  fun n _ =>
    if (n <? 2)%nat || Nat.even n then inl {| status_code := 200; content := sample_body |}
    else inl {| status_code := 503; content := [] |}.

(** Every request is answered 304 Not Modified, with a body. *)
Definition net_304 : nat -> request -> Response + transport_error :=
  fun _ _ => inl {| status_code := 304; content := sample_body |}.


(** A file system in which the file of the task (0.9, 100) already exists. *)
Definition fs_with_old_file : gmap Path (list Byte.byte) :=
  {[ ["platevs_full_dataset"; "similarity_matrix_qcov100_threshold_0.9.csv"] :=
       [Byte.x6f; Byte.x6c; Byte.x64] ]}.

(** ** The files of a run *)

(** The file system that a whole run of the bulk downloader leaves. *)
Definition run_files (net : nat -> request -> Response + transport_error)
    (float_str : float -> string) (OUTPUT_DIR : string) (THRESHOLDS : list float)
    (QCOV_LEVELS : list Z) (fs0 : gmap Path (list Byte.byte)) : gmap Path (list Byte.byte) :=
  fs (snd (main_with net float_str OUTPUT_DIR THRESHOLDS QCOV_LEVELS (init_state fs0))).

(** The writes [ws], oldest first, replayed on a file system. *)
Definition apply_writes (ws : list (Path * list Byte.byte))
    (m : gmap Path (list Byte.byte)) : gmap Path (list Byte.byte) :=
  foldl (fun m w => <[fst w := snd w]> m) m ws.

(** What the download that sends [r] as the [n]-th request writes at [p]. *)
Definition task_write (net : nat -> request -> Response + transport_error)
    (n : nat) (r : request) (p : Path) : list (Path * list Byte.byte) :=
  match fetch net n r with
  | inl resp => [(p, content resp)]
  | inr _ => []
  end.

(** The writes of the downloads [jobs] (request and destination), sent as
    the [n]-th and following requests. *)
Fixpoint written (net : nat -> request -> Response + transport_error)
    (n : nat) (jobs : list (request * Path)) : list (Path * list Byte.byte) :=
  match jobs with
  | [] => []
  | (r, p) :: jobs' => task_write net n r p ++ written net (S n) jobs'
  end.

Definition csv_jobs (float_str : float -> string) (client : PlateVSClient)
    (tasks : list (Z * float)) : list (request * Path) :=
  map (fun '(q, t) => (csv_request client t q, csv_path float_str client t q)) tasks.

Definition sdf_jobs (float_str : float -> string) (client : PlateVSClient)
    (THRESHOLDS : list float) : list (request * Path) :=
  map (fun t => (sdf_request client t, sdf_path float_str client t)) THRESHOLDS.

(** The downloads of a whole run that has passed the probe. *)
Definition run_jobs (float_str : float -> string) (OUTPUT_DIR : string)
    (THRESHOLDS : list float) (QCOV_LEVELS : list Z) : list (request * Path) :=
  csv_jobs float_str (new_client 30 OUTPUT_DIR) (matrix_tasks THRESHOLDS QCOV_LEVELS)
  ++ sdf_jobs float_str (new_client 30 OUTPUT_DIR) THRESHOLDS.

(** A loop body that runs one download and keeps the journal: the files
    change by the write of the task and by nothing else. *)
Definition task_journal (net : nat -> request -> Response + transport_error) {A}
    (req : A -> request) (dest : A -> Path) (body : nat -> A -> M nat) : Prop :=
  forall c x s, exists c' evs,
    body c x s = (Ret c',
                  {| sent := S (sent s);
                     fs := apply_writes (task_write net (sent s) (req x) (dest x)) (fs s);
                     trace := trace s ++ evs |})
    /\ writes_of evs = task_write net (sent s) (req x) (dest x).

(** [c in s]. *)
Fixpoint mentions (c : ascii) (s : string) : bool :=
  match s with
  | EmptyString => false
  | String c' s' => Ascii.eqb c c' || mentions c s'
  end.

(** ** The other downloads of the client *)

(** [s.replace(old, new)] for one-character [old] and [new]. *)
Fixpoint replace_char (old new : ascii) (s : string) : string :=
  match s with
  | EmptyString => EmptyString
  | String c s' => String (if Ascii.eqb c old then new else c) (replace_char old new s')
  end.

(** [s[:n]]. *)
Fixpoint str_take (n : nat) (s : string) : string :=
  match n, s with
  | S n', String c s' => String c (str_take n' s')
  | _, _ => EmptyString
  end.

(** [query.replace('/', '_').replace('\\', '_')[:50]]. *)
Definition safe_query (query : string) : string :=
  str_take 50 (replace_char "\" "_" (replace_char "/" "_" query)).

Definition affinity_filename (query_type query : string) : string :=
  "affinity_" +:+ query_type +:+ "_" +:+ safe_query query +:+ ".csv".

(** The keyword arguments of [session.post]: the JSON body is the dictionary
    [{'filters': filters}]. *)
Record post_request : Type := mkPost {
  post_url : string;
  post_json : list (string * list (string * string));
  post_timeout : Z
}.

(** The lines that the other downloads and the tests print. *)
Inductive xoutput : Type :=
  | DownloadingThreshold (t : float)
  | UnsupportedQueryType (query_type : string)
  | DownloadedAffinity (p : Path)
  | ErrorAffinity (e : RequestException)
  | DownloadedCsvTo (p : Path)
  | DownloadedSdfTo (p : Path).

(** The events of the whole client: those of the bulk run, POST requests
    and the further lines. *)
Inductive xevent : Type :=
  | Base (e : event)
  | EvPost (r : post_request)
  | EvPrintX (o : xoutput).

(** As [state]; [xsent] counts the GET and the POST requests together. *)
Record xstate : Type := mkXState {
  xsent : nat;
  xfs : gmap Path (list Byte.byte);
  xtrace : list xevent
}.

Definition XM (A : Type) : Type := xstate -> outcome A * xstate.

Definition xret {A} (a : A) : XM A := fun xs => (Ret a, xs).

Definition xbind {A B} (m : XM A) (k : A -> XM B) : XM B :=
  fun xs =>
    match m xs with
    | (Ret a, xs') => k a xs'
    | (Raise e, xs') => (Raise e, xs')
    end.

Definition xtry_except {A} (body : XM A) (handler : RequestException -> XM A) : XM A :=
  fun xs =>
    match body xs with
    | (Ret a, xs') => (Ret a, xs')
    | (Raise e, xs') => handler e xs'
    end.

(** A computation of the bulk run, run inside the whole client: it starts
    from the same counter and files and its events are appended. *)
Definition lift {A} (m : M A) : XM A :=
  fun xs =>
    let (r, s') := m {| sent := xsent xs; fs := xfs xs; trace := [] |} in
    (r, {| xsent := sent s'; xfs := fs s'; xtrace := xtrace xs ++ map Base (trace s') |}).

Definition xprint (o : xoutput) : XM unit :=
  fun xs => (Ret tt, {| xsent := xsent xs; xfs := xfs xs; xtrace := xtrace xs ++ [EvPrintX o] |}).

Declare Scope xpy_scope.
Delimit Scope xpy_scope with xpy.
Notation "'let!' x ':=' m 'in' k" := (xbind m (fun x => k))
  (at level 10, x name, m at level 100, k at level 200) : xpy_scope.
Notation "m '>>' k" := (xbind m (fun _ => k))
  (at level 100, k at level 200, right associativity) : xpy_scope.

Fixpoint xfor_each {A B} (l : list A) (body : B -> A -> XM B) (acc : B) : XM B :=
  match l with
  | [] => xret acc
  | x :: l' => xbind (body acc x) (fun acc' => xfor_each l' body acc')
  end.

(** The value [{'csv': ..., 'sdf': ...}] of the dictionary of results. *)
Record similarity_files : Type := mkFiles {
  csv : option Path;
  sdf : option Path
}.

(** [d[k] = v] on a dictionary with float keys, as the list of its items in
    insertion order: the value of an equal key is replaced where it stands,
    a new key goes last.  Keys are compared with [==]; a NaN, which is equal
    to no float and which Python finds again by identity only, is outside
    this model. *)
Definition dict_set {V} (k : float) (v : V) (d : list (float * V)) : list (float * V) :=
  if existsb (fun kv => PrimFloat.eqb (fst kv) k) d
  then map (fun kv => if PrimFloat.eqb (fst kv) k then (fst kv, v) else kv) d
  else d ++ [(k, v)].

(** [d.get(k)]. *)
Fixpoint dict_get {V} (k : float) (d : list (float * V)) : option V :=
  match d with
  | [] => None
  | (k', v) :: d' => if PrimFloat.eqb k' k then Some v else dict_get k d'
  end.

Section Client.

Local Open Scope xpy_scope.

Variable net : nat -> request -> Response + transport_error.

(** The answer to the [n]-th request of the run when it is a POST. *)
Variable net_post : nat -> post_request -> Response + transport_error.

Variable float_str : float -> string.

Definition session_post (r : post_request) : XM Response :=
  fun xs =>
    let xs' := {| xsent := S (xsent xs); xfs := xfs xs; xtrace := xtrace xs ++ [EvPost r] |} in
    match net_post (xsent xs) r with
    | inl resp => (Ret resp, xs')
    | inr e => (Raise (Transport e), xs')
    end.

Definition affinity_request (self : PlateVSClient) (filters : list (string * string)) : post_request :=
  {| post_url := API_URL +:+ "/molecules/download";
     post_json := [("filters", filters)];
     post_timeout := self_timeout self |}.

Definition download_affinity_data (self : PlateVSClient) (query query_type : string)
    : XM (option Path) :=
  let send (filters : list (string * string)) : XM (option Path) :=
    xtry_except
      (let! response := session_post (affinity_request self filters) in
       lift (raise_for_status response) >>
       let filename := affinity_filename query_type query in
       let filepath := truediv (output_dir self) filename in
       lift (write_file filepath (content response)) >>
       xprint (DownloadedAffinity filepath) >>
       xret (Some filepath))
      (fun e => xprint (ErrorAffinity e) >> xret None) in
  if String.eqb query_type "uniprot" then send [("protein_id", query)]
  else if String.eqb query_type "smiles" then send [("smiles", query)]
  else xprint (UnsupportedQueryType query_type) >> xret None.

(** [time.sleep(1)] is the pause of 1.0 second. *)
Definition download_all_similarity_data (self : PlateVSClient) (thresholds : list float)
    (qcov_level : Z) : XM (list (float * similarity_files)) :=
  xfor_each thresholds
    (fun results threshold =>
       xprint (DownloadingThreshold threshold) >>
       let! csv_path := lift (download_similarity_matrix_csv net float_str self threshold qcov_level) in
       let! sdf_path := lift (download_similarity_sdf net float_str self threshold) in
       let results := dict_set threshold {| csv := csv_path; sdf := sdf_path |} results in
       lift (sleep 1) >>
       xret results)
    [].

(** *** test_client.py *)


(** [path.exists()] and [path.stat().st_size > 0] for the path of a file. *)
Definition path_exists (p : Path) : XM bool :=
  fun xs => (Ret (bool_decide (is_Some (xfs xs !! p))), xs).

Definition st_size_positive (p : Path) : XM bool :=
  fun xs => (Ret (match xfs xs !! p with Some (_ :: _) => true | _ => false end), xs).



End Client.

(** What a download returns when it sends [r] as the [n]-th request and
    writes at [p]. *)
Definition download_result (net : nat -> request -> Response + transport_error)
    (n : nat) (r : request) (p : Path) : option Path :=
  match fetch net n r with
  | inl _ => Some p
  | inr _ => None
  end.

(** The two downloads of each threshold, sent as the [n]-th and following
    requests: requests with destinations, and results. *)
Definition similarity_jobs (float_str : float -> string) (self : PlateVSClient)
    (qcov_level : Z) (thresholds : list float) : list (request * Path) :=
  flat_map (fun t => [ (csv_request self t qcov_level, csv_path float_str self t qcov_level);
                       (sdf_request self t, sdf_path float_str self t) ]) thresholds.

Fixpoint similarity_results (net : nat -> request -> Response + transport_error)
    (float_str : float -> string) (self : PlateVSClient) (qcov_level : Z)
    (n : nat) (thresholds : list float) : list (float * similarity_files) :=
  match thresholds with
  | [] => []
  | t :: thresholds' =>
      (t, {| csv := download_result net n (csv_request self t qcov_level)
                      (csv_path float_str self t qcov_level);
             sdf := download_result net (S n) (sdf_request self t)
                      (sdf_path float_str self t) |})
      :: similarity_results net float_str self qcov_level (S (S n)) thresholds'
  end.

(** No float of the list is [==] to a later one. *)
Fixpoint distinct_keys (l : list float) : bool :=
  match l with
  | [] => true
  | t :: l' => forallb (fun t' => negb (PrimFloat.eqb t t')) l' && distinct_keys l'
  end.

(** No float of the list is a NaN. *)
Definition no_nan (l : list float) : bool := forallb (fun t => PrimFloat.eqb t t) l.

(** What [download_affinity_data] gets from a POST sent as the [n]-th
    request, as [fetch]. *)
Definition fetch_post (net_post : nat -> post_request -> Response + transport_error)
    (n : nat) (r : post_request) : Response + RequestException :=
  match net_post n r with
  | inl resp =>
      if is_error_status (status_code resp) then inr (HTTPError (status_code resp))
      else inl resp
  | inr e => inr (Transport e)
  end.

(** The filters of a supported query type. *)
Definition affinity_filters (query query_type : string) : option (list (string * string)) :=
  if String.eqb query_type "uniprot" then Some [("protein_id", query)]
  else if String.eqb query_type "smiles" then Some [("smiles", query)]
  else None.

Definition affinity_path (self : PlateVSClient) (query query_type : string) : Path :=
  truediv (output_dir self) (affinity_filename query_type query).


Definition init_xstate (fs0 : gmap Path (list Byte.byte)) : xstate :=
  {| xsent := 0; xfs := fs0; xtrace := [] |}.

(** The events of the bulk run among those of the whole client, and the
    POST requests. *)
Definition base_of (e : xevent) : option event :=
  match e with Base e => Some e | _ => None end.

Definition post_of (e : xevent) : option post_request :=
  match e with EvPost r => Some r | _ => None end.

Definition base_events (tr : list xevent) : list event := omap base_of tr.
Definition posts_of (tr : list xevent) : list post_request := omap post_of tr.

(** Every POST is served; the body of the first answer is ["1"], that of
    the later ones is ["2"]. *)
Definition net_post_numbered : nat -> post_request -> Response + transport_error :=
  fun n _ => inl {| status_code := 200;
                    content := if Nat.eqb n 0 then [Byte.x31] else [Byte.x32] |}.

(** Every POST is answered 200 with a short body. *)
Definition net_post_up : nat -> post_request -> Response + transport_error :=
  fun _ _ => inl {| status_code := 200; content := sample_body |}.

(** ** The denotation of the two downloads and of the status probe *)

(** Unfolds the operations of the monad and flattens the trace. *)
Ltac run_monad :=
  cbv beta iota zeta delta
    [bind try_except ret raise print sleep emit write_file session_get
     raise_for_status];
  cbn [sent fs trace]; rewrite <- ?app_assoc; cbn [app].

Example Path_of_output_dir : Path_of OUTPUT_DIR = ["platevs_full_dataset"].
Proof. reflexivity. Qed.

Example Path_of_normalises : Path_of "/srv//data/./platevs/" = ["/"; "srv"; "data"; "platevs"].
Proof. reflexivity. Qed.

Example truediv_relative :
  truediv (Path_of "./out") "similarity_sdf_threshold_0.9.tar.gz"
  = ["out"; "similarity_sdf_threshold_0.9.tar.gz"].
Proof. reflexivity. Qed.

Example csv_download_trace :
  trace (snd (download_similarity_matrix_csv net_up str_threshold (new_client 30 OUTPUT_DIR)
                0.5 70 (init_state ∅)))
  = [ EvGet {| url := "https://www.drugbench.org/api/similarity-matrix/download-uniprot";
               params := [("threshold", PyFloat 0.5); ("qcov_level", PyInt 70)];
               timeout := 30; allow_redirects := true |};
      EvWrite ["platevs_full_dataset"; "similarity_matrix_qcov70_threshold_0.5.csv"] sample_body;
      EvPrint (DownloadedCsv
                 ["platevs_full_dataset"; "similarity_matrix_qcov70_threshold_0.5.csv"]) ].
Proof. vm_compute. reflexivity. Qed.

Example small_run_output :
  prints_of (run_trace net_flaky str_threshold OUTPUT_DIR [0.0; 0.5]%float [100] ∅)
  = header OUTPUT_DIR [0.0; 0.5]%float [100]
    ++ phase1_banner
    ++ [ ProcessingQcov 100;
         DownloadingCsv 0.0;
         DownloadedCsv ["platevs_full_dataset"; "similarity_matrix_qcov100_threshold_0.0.csv"];
         Done;
         DownloadingCsv 0.5; ErrorCsv (HTTPError 503); Failed ]
    ++ phase2_banner
    ++ [ DownloadingSdf 0.0;
         DownloadedSdf ["platevs_full_dataset"; "similarity_sdf_threshold_0.0.tar.gz"];
         Done;
         DownloadingSdf 0.5; ErrorSdf (HTTPError 503); Failed ]
    ++ summary OUTPUT_DIR [0.0; 0.5]%float [100] 1 1.
Proof. vm_compute. reflexivity. Qed.

Section Denotation.

Variable net : nat -> request -> Response + transport_error.
Variable float_str : float -> string.

Lemma download_similarity_matrix_csv_eq self t q s :
  download_similarity_matrix_csv net float_str self t q s =
  match fetch net (sent s) (csv_request self t q) with
  | inl resp =>
      (Ret (Some (csv_path float_str self t q)),
       {| sent := S (sent s);
          fs := <[csv_path float_str self t q := content resp]> (fs s);
          trace := trace s ++ warning q ++
                   [EvGet (csv_request self t q);
                    EvWrite (csv_path float_str self t q) (content resp);
                    EvPrint (DownloadedCsv (csv_path float_str self t q))] |})
  | inr e =>
      (Ret None,
       {| sent := S (sent s);
          fs := fs s;
          trace := trace s ++ warning q ++
                   [EvGet (csv_request self t q); EvPrint (ErrorCsv e)] |})
  end.
Proof.
  unfold download_similarity_matrix_csv, fetch, warning, csv_path.
  destruct (bool_decide (q ∈ QCOV_LEVELS));
    destruct (net (sent s) (csv_request self t q)) as [resp|e] eqn:Hnet;
    try destruct (is_error_status (status_code resp)) eqn:Hst;
    run_monad; rewrite ?Hnet; run_monad; rewrite ?Hst; run_monad; reflexivity.
Qed.

Lemma download_similarity_sdf_eq self t s :
  download_similarity_sdf net float_str self t s =
  match fetch net (sent s) (sdf_request self t) with
  | inl resp =>
      (Ret (Some (sdf_path float_str self t)),
       {| sent := S (sent s);
          fs := <[sdf_path float_str self t := content resp]> (fs s);
          trace := trace s ++
                   [EvGet (sdf_request self t);
                    EvWrite (sdf_path float_str self t) (content resp);
                    EvPrint (DownloadedSdf (sdf_path float_str self t))] |})
  | inr e =>
      (Ret None,
       {| sent := S (sent s);
          fs := fs s;
          trace := trace s ++ [EvGet (sdf_request self t); EvPrint (ErrorSdf e)] |})
  end.
Proof.
  unfold download_similarity_sdf, fetch, sdf_path.
  destruct (net (sent s) (sdf_request self t)) as [resp|e] eqn:Hnet;
    try destruct (is_error_status (status_code resp)) eqn:Hst;
    run_monad; rewrite ?Hnet; run_monad; rewrite ?Hst; run_monad; reflexivity.
Qed.

Lemma check_service_status_eq self s :
  check_service_status net self s =
  (Ret (<["api" := reachable net (S (sent s)) (API_URL +:+ "/health")]>
          (<["main" := reachable net (sent s) BASE_URL]> ∅)),
   {| sent := S (S (sent s));
      fs := fs s;
      trace := trace s ++ [EvGet (probe_request BASE_URL);
                           EvGet (probe_request (API_URL +:+ "/health"))] |}).
Proof.
  unfold check_service_status, endpoints, reachable.
  cbn [for_each].
  destruct (net (sent s) (probe_request BASE_URL)) as [r0|e0] eqn:H0;
    destruct (net (S (sent s)) (probe_request (API_URL +:+ "/health"))) as [r1|e1] eqn:H1;
    run_monad; rewrite ?H0; run_monad; rewrite ?H1; run_monad; reflexivity.
Qed.

End Denotation.

(** ** Projections of traces *)

Lemma pacing_of_app tr1 tr2 : pacing_of (tr1 ++ tr2) = pacing_of tr1 ++ pacing_of tr2.
Proof. apply List.filter_app. Qed.

Lemma pacing_of_print o tr : pacing_of (EvPrint o :: tr) = pacing_of tr.
Proof. reflexivity. Qed.

Lemma pacing_of_prints (os : list output) : pacing_of (map EvPrint os) = [].
Proof. induction os as [|o os IH]; [reflexivity | exact IH]. Qed.

Lemma requests_of_app tr1 tr2 : requests_of (tr1 ++ tr2) = requests_of tr1 ++ requests_of tr2.
Proof. apply omap_app. Qed.

Lemma sleeps_of_app tr1 tr2 : sleeps_of (tr1 ++ tr2) = sleeps_of tr1 ++ sleeps_of tr2.
Proof. apply omap_app. Qed.

Lemma requests_of_prints (os : list output) : requests_of (map EvPrint os) = [].
Proof. induction os as [|o os IH]; [reflexivity | exact IH]. Qed.

Lemma sleeps_of_prints (os : list output) : sleeps_of (map EvPrint os) = [].
Proof. induction os as [|o os IH]; [reflexivity | exact IH]. Qed.

Lemma requests_of_gets (rs : list request) : requests_of (map EvGet rs) = rs.
Proof.
  induction rs as [|r rs IH]; [reflexivity |].
  cbn. unfold requests_of in IH. rewrite IH. reflexivity.
Qed.

Lemma sleeps_of_gets (rs : list request) : sleeps_of (map EvGet rs) = [].
Proof. induction rs as [|r rs IH]; [reflexivity | exact IH]. Qed.

Lemma requests_of_pacing tr : requests_of (pacing_of tr) = requests_of tr.
Proof.
  induction tr as [|e tr IH]; [reflexivity |].
  destruct e; cbn; unfold requests_of, pacing_of in IH; rewrite ?IH; reflexivity.
Qed.

Lemma sleeps_of_pacing tr : sleeps_of (pacing_of tr) = sleeps_of tr.
Proof.
  induction tr as [|e tr IH]; [reflexivity |].
  destruct e; cbn; unfold sleeps_of, pacing_of in IH; rewrite ?IH; reflexivity.
Qed.

Lemma requests_of_schedule pause reqs : requests_of (paced_schedule pause reqs) = reqs.
Proof.
  induction reqs as [|r reqs IH]; [reflexivity |].
  cbn. unfold requests_of, paced_schedule in IH. rewrite IH. reflexivity.
Qed.

Lemma sleeps_of_schedule pause reqs :
  sleeps_of (paced_schedule pause reqs) = repeat pause (length reqs).
Proof.
  induction reqs as [|r reqs IH]; [reflexivity |].
  cbn. unfold sleeps_of, paced_schedule in IH. rewrite IH. reflexivity.
Qed.

Lemma paced_schedule_app pause l1 l2 :
  paced_schedule pause (l1 ++ l2) = paced_schedule pause l1 ++ paced_schedule pause l2.
Proof. apply flat_map_app. Qed.

(** ** The loops *)

Section Loops.

Variable net : nat -> request -> Response + transport_error.
Variable float_str : float -> string.

Lemma succeeded_app n l1 l2 :
  succeeded net n (l1 ++ l2) = (succeeded net n l1 + succeeded net (n + length l1) l2)%nat.
Proof.
  revert n; induction l1 as [|r l1 IH]; intros n; cbn [app succeeded length].
  - rewrite Nat.add_0_r. reflexivity.
  - rewrite IH. replace (S n + length l1)%nat with (n + S (length l1))%nat by lia. lia.
Qed.

Lemma succeeded_le n l : (succeeded net n l <= length l)%nat.
Proof.
  revert n; induction l as [|r l IH]; intros n; cbn [succeeded length]; [lia |].
  specialize (IH (S n)). destruct (fetch_ok net n r); lia.
Qed.

Lemma for_each_tasks {A} (req : A -> request) pause body :
  task_step net req pause body ->
  forall (l : list A) c s, exists evs fs',
    for_each l body c s =
      (Ret (c + succeeded net (sent s) (map req l))%nat,
       {| sent := (sent s + length l)%nat; fs := fs'; trace := trace s ++ evs |})
    /\ pacing_of evs = paced_schedule pause (map req l).
Proof.
  intros Hstep l; induction l as [|x l IH]; intros c s.
  - exists [], (fs s). cbn. unfold ret. rewrite app_nil_r, !Nat.add_0_r.
    destruct s; split; reflexivity.
  - destruct (Hstep c x s) as (evs1 & fs1 & Hbody & Hp1).
    cbn [for_each]. unfold bind at 1. rewrite Hbody.
    destruct (IH (if fetch_ok net (sent s) (req x) then S c else c)
                {| sent := S (sent s); fs := fs1; trace := trace s ++ evs1 |})
      as (evs2 & fs2 & Hrest & Hp2).
    rewrite Hrest. cbn [sent fs trace].
    exists (evs1 ++ evs2), fs2. split.
    + rewrite <- app_assoc. cbn [map succeeded length].
      f_equal; [f_equal | f_equal]; destruct (fetch_ok net (sent s) (req x)); lia.
    + rewrite pacing_of_app, Hp1, Hp2. reflexivity.
Qed.

Lemma pacing_of_warning q : pacing_of (warning q) = [].
Proof. unfold warning. destruct (bool_decide _); reflexivity. Qed.

Lemma csv_body_step client q :
  task_step net (fun t => csv_request client t q) 0.5 (csv_body net float_str client q).
Proof.
  intros c t s. unfold csv_body, fetch_ok.
  unfold bind at 1. unfold print at 1. unfold bind at 1.
  rewrite download_similarity_matrix_csv_eq. cbn [sent fs trace emit].
  destruct (fetch net (sent s) (csv_request client t q)) as [resp|e]; run_monad;
    eexists _, _; (split; [reflexivity |]);
    rewrite pacing_of_print, pacing_of_app, pacing_of_warning; reflexivity.
Qed.

Lemma sdf_body_step client :
  task_step net (sdf_request client) 1.0 (sdf_body net float_str client).
Proof.
  intros c t s. unfold sdf_body, fetch_ok.
  unfold bind at 1. unfold print at 1. unfold bind at 1.
  rewrite download_similarity_sdf_eq. cbn [sent fs trace emit].
  destruct (fetch net (sent s) (sdf_request client t)) as [resp|e]; run_monad;
    eexists _, _; (split; reflexivity).
Qed.

Lemma csv_requests_cons client (q : Z) (Q : list Z) (T : list float) :
  csv_requests client (list_prod (q :: Q) T) =
  map (fun t => csv_request client t q) T ++ csv_requests client (list_prod Q T).
Proof.
  unfold csv_requests. cbn [list_prod]. rewrite map_app, map_map. reflexivity.
Qed.

Lemma length_csv_requests client (Q : list Z) (T : list float) :
  length (csv_requests client (list_prod Q T)) = (length T * length Q)%nat.
Proof.
  unfold csv_requests. rewrite length_map, length_prod. lia.
Qed.

(** The outer loop of phase 1, from any counter and state. *)
Lemma csv_rows_spec client (T : list float) (Q : list Z) :
  forall c s, exists evs fs',
    for_each Q
      (fun csv_count qcov =>
         print (ProcessingQcov qcov) >>
         for_each T (csv_body net float_str client qcov) csv_count) c s =
      (Ret (c + succeeded net (sent s) (csv_requests client (list_prod Q T)))%nat,
       {| sent := (sent s + length T * length Q)%nat; fs := fs';
          trace := trace s ++ evs |})
    /\ pacing_of evs = paced_schedule 0.5 (csv_requests client (list_prod Q T)).
Proof.
  induction Q as [|q Q IH]; intros c s.
  - exists [], (fs s). cbn. unfold ret.
    rewrite app_nil_r, Nat.mul_0_r, !Nat.add_0_r. destruct s; split; reflexivity.
  - cbn [for_each]. unfold bind at 1. unfold bind at 1. unfold print at 1.
    destruct (for_each_tasks _ _ _ (csv_body_step client q) T c
                (emit (EvPrint (ProcessingQcov q)) s)) as (evs1 & fs1 & Hrow & Hp1).
    rewrite Hrow. cbn [emit sent fs trace].
    destruct (IH (c + succeeded net (sent s) (map (fun t => csv_request client t q) T))%nat
                {| sent := (sent s + length T)%nat; fs := fs1;
                   trace := (trace s ++ [EvPrint (ProcessingQcov q)]) ++ evs1 |})
      as (evs2 & fs2 & Hrest & Hp2).
    rewrite Hrest. cbn [sent fs trace].
    exists (EvPrint (ProcessingQcov q) :: evs1 ++ evs2), fs2. split.
    + rewrite csv_requests_cons, succeeded_app, length_map.
      rewrite <- !app_assoc. cbn [app length].
      f_equal; [f_equal | f_equal]; lia.
    + rewrite pacing_of_print, pacing_of_app, Hp1, Hp2, csv_requests_cons,
        paced_schedule_app. reflexivity.
Qed.

Lemma csv_phase_spec client (T : list float) (Q : list Z) s :
  exists evs fs',
    csv_phase net float_str client T Q s =
      (Ret (succeeded net (sent s) (csv_requests client (matrix_tasks T Q))),
       {| sent := (sent s + length T * length Q)%nat; fs := fs';
          trace := trace s ++ evs |})
    /\ pacing_of evs = paced_schedule 0.5 (csv_requests client (matrix_tasks T Q)).
Proof. apply (csv_rows_spec client T Q 0%nat s). Qed.

Lemma sdf_phase_spec client (T : list float) s :
  exists evs fs',
    sdf_phase net float_str client T s =
      (Ret (succeeded net (sent s) (sdf_requests client T)),
       {| sent := (sent s + length T)%nat; fs := fs'; trace := trace s ++ evs |})
    /\ pacing_of evs = paced_schedule 1.0 (sdf_requests client T).
Proof. apply (for_each_tasks _ _ _ (sdf_body_step client) T 0%nat s). Qed.

(** The run when the main site is reported unreachable. *)
Lemma main_with_abort O (T : list float) (Q : list Z) fs0 :
  reachable net 0 BASE_URL = false ->
  main_with net float_str O T Q (init_state fs0) =
    (Ret tt,
     {| sent := 2; fs := fs0;
        trace := map EvPrint (header O T Q) ++ map EvGet probes ++
                 [EvPrint (Text "Error: Main website is not reachable. Aborting.")] |}).
Proof.
  intros Hmain. unfold main_with, init_state. run_monad.
  rewrite check_service_status_eq.
  rewrite lookup_insert_ne by discriminate. rewrite lookup_insert_eq.
  cbn [sent fs trace]. cbv beta iota delta [default from_option id].
  rewrite Hmain. cbv beta iota delta [negb]. cbn [sent fs trace].
  rewrite <- ?app_assoc. reflexivity.
Qed.

(** The run when the main site is reported reachable. *)
Lemma main_with_run O (T : list float) (Q : list Z) fs0 :
  reachable net 0 BASE_URL = true ->
  let client := new_client 30 O in
  let csv_count := succeeded net 2 (csv_requests client (matrix_tasks T Q)) in
  let sdf_count := succeeded net (2 + length T * length Q) (sdf_requests client T) in
  exists evs1 evs2 fs',
    main_with net float_str O T Q (init_state fs0) =
      (Ret tt,
       {| sent := (2 + length T * length Q + length T)%nat; fs := fs';
          trace := map EvPrint (header O T Q) ++ map EvGet probes ++
                   map EvPrint phase1_banner ++ evs1 ++
                   map EvPrint phase2_banner ++ evs2 ++
                   map EvPrint (summary O T Q csv_count sdf_count) |})
    /\ pacing_of evs1 = paced_schedule 0.5 (csv_requests client (matrix_tasks T Q))
    /\ pacing_of evs2 = paced_schedule 1.0 (sdf_requests client T).
Proof.
  intros Hmain client csv_count sdf_count. unfold main_with, init_state. run_monad.
  rewrite check_service_status_eq.
  rewrite lookup_insert_ne by discriminate. rewrite lookup_insert_eq.
  cbn [sent fs trace]. cbv beta iota delta [default from_option id].
  rewrite Hmain. cbv beta iota delta [negb]. cbn [sent fs trace].
  match goal with |- context [csv_phase _ _ _ _ _ ?s] =>
    destruct (csv_phase_spec client T Q s) as (evs1 & fs1 & H1 & Hp1) end.
  fold client. rewrite H1. cbn [sent fs trace].
  match goal with |- context [sdf_phase _ _ _ _ ?s] =>
    destruct (sdf_phase_spec client T s) as (evs2 & fs2 & H2 & Hp2) end.
  rewrite H2. cbn [sent fs trace].
  exists evs1, evs2, fs2. split; [| split; assumption].
  rewrite <- ?app_assoc. reflexivity.
Qed.

End Loops.

(** ** The task grid *)

Lemma lookup_list_prod {A B} (l1 : list A) (l2 : list B) i j a b :
  l1 !! i = Some a -> l2 !! j = Some b ->
  list_prod l1 l2 !! (i * length l2 + j)%nat = Some (a, b).
Proof.
  revert i; induction l1 as [|x l1 IH]; intros i Ha Hb; [discriminate |].
  cbn [list_prod]. destruct i as [|i]; cbn in Ha.
  - injection Ha as ->. cbn [Nat.mul Nat.add].
    rewrite lookup_app_l by (rewrite length_map; eapply lookup_lt_Some; eassumption).
    rewrite list_lookup_fmap, Hb. reflexivity.
  - rewrite lookup_app_r by (rewrite length_map; cbn; lia).
    rewrite length_map.
    replace (S i * length l2 + j - length l2)%nat with (i * length l2 + j)%nat by (cbn; lia).
    apply IH; assumption.
Qed.

Lemma run_trace_requests net float_str O (T : list float) (Q : list Z) fs0 :
  reachable net 0 BASE_URL = true ->
  requests_of (run_trace net float_str O T Q fs0) =
    probes ++ csv_requests (new_client 30 O) (matrix_tasks T Q)
           ++ sdf_requests (new_client 30 O) T.
Proof.
  intros Hmain. unfold run_trace.
  destruct (main_with_run net float_str O T Q fs0 Hmain) as (evs1 & evs2 & fs' & Hrun & Hp1 & Hp2).
  rewrite Hrun. cbn [snd trace].
  rewrite !requests_of_app, !requests_of_prints, requests_of_gets.
  rewrite <- (requests_of_pacing evs1), <- (requests_of_pacing evs2), Hp1, Hp2,
    !requests_of_schedule.
  cbn [app]. rewrite app_nil_r. reflexivity.
Qed.

(** C1. When the status probe lets the run start, the download requests of
    the run are, in this order and whatever the service answers: one
    matrix-CSV request for every pair of a coverage level and a threshold,
    coverage level first (the pair of the [i]-th level and the [j]-th
    threshold is the task number [i * |thresholds| + j]), which makes
    [|coverage_levels| * |thresholds|] matrix tasks, then one archive
    request for every threshold. *)
Theorem bulk_run_enumerates_grid net float_str O (T : list float) (Q : list Z) fs0 :
  reachable net 0 BASE_URL = true ->
  let client := new_client 30 O in
  requests_of (run_trace net float_str O T Q fs0) =
    probes ++ csv_requests client (matrix_tasks T Q) ++ sdf_requests client T
  /\ csv_requests client (matrix_tasks T Q) =
       flat_map (fun q => map (fun t => csv_request client t q) T) Q
  /\ length (csv_requests client (matrix_tasks T Q)) = (length Q * length T)%nat
  /\ (forall i j q t, Q !! i = Some q -> T !! j = Some t ->
        csv_requests client (matrix_tasks T Q) !! (i * length T + j)%nat
          = Some (csv_request client t q))
  /\ sdf_requests client T = map (sdf_request client) T
  /\ length (sdf_requests client T) = length T.
Proof.
  intros Hmain client. repeat split.
  - apply run_trace_requests, Hmain.
  - unfold matrix_tasks. induction Q as [|q Q IH]; [reflexivity |].
    rewrite csv_requests_cons, IH. reflexivity.
  - unfold matrix_tasks. rewrite length_csv_requests. lia.
  - intros i j q t Hq Ht. unfold csv_requests, matrix_tasks.
    rewrite list_lookup_fmap, (lookup_list_prod Q T i j q t Hq Ht). reflexivity.
  - unfold sdf_requests. apply length_map.
Qed.

Lemma bulk_run_enumerates_grid_witness :
  reachable net_up 0 BASE_URL = true /\
  requests_of (run_trace net_up str_threshold "out" [0.0; 0.5; 0.9]%float [50; 100] ∅) =
    probes
    ++ map (fun '(q, t) => csv_request (new_client 30 "out") t q)
         [(50, 0.0%float); (50, 0.5%float); (50, 0.9%float);
          (100, 0.0%float); (100, 0.5%float); (100, 0.9%float)]
    ++ map (sdf_request (new_client 30 "out")) [0.0; 0.5; 0.9]%float.
Proof.
  split; [reflexivity |].
  apply (bulk_run_enumerates_grid net_up str_threshold "out" [0.0; 0.5; 0.9]%float [50; 100] ∅).
  reflexivity.
Defined.

(** ** Failures of single tasks *)









(** ** The status probe and the abort *)

Lemma download_request_not_probe client (T : list float) (Q : list Z) r :
  r ∈ csv_requests client (matrix_tasks T Q) ++ sdf_requests client T -> r ∉ probes.
Proof.
  intros Hin Hprobe.
  assert (url r = BASE_URL \/ url r = API_URL +:+ "/health") as Hurl.
  { unfold probes in Hprobe. apply elem_of_cons in Hprobe as [-> | Hprobe]; [left; reflexivity |].
    apply elem_of_cons in Hprobe as [-> | Hprobe]; [right; reflexivity |].
    apply elem_of_nil in Hprobe as []. }
  apply elem_of_app in Hin as [Hin | Hin].
  - unfold csv_requests in Hin. apply list_elem_of_fmap in Hin as ([q t] & -> & _).
    destruct Hurl as [Hurl | Hurl]; discriminate Hurl.
  - unfold sdf_requests in Hin. apply list_elem_of_fmap in Hin as (t & -> & _).
    destruct Hurl as [Hurl | Hurl]; discriminate Hurl.
Qed.

(** C3. When the status probe reports the main site unreachable, the run
    returns after the two requests of the probe: no download is requested,
    no file is written, no pause is taken and no line of the summary is
    printed.  In every run the requests of the probe are the first two
    requests, and none of the later requests is a probe. *)
Theorem unreachable_run_aborts net float_str O (T : list float) (Q : list Z) fs0 :
  (reachable net 0 BASE_URL = false ->
     exists tr,
       main_with net float_str O T Q (init_state fs0) =
         (Ret tt, {| sent := 2; fs := fs0; trace := tr |})
       /\ requests_of tr = probes
       /\ writes_of tr = []
       /\ sleeps_of tr = []
       /\ existsb is_summary (prints_of tr) = false)
  /\ (exists downloads,
       requests_of (run_trace net float_str O T Q fs0) = probes ++ downloads
       /\ forall r, r ∈ downloads -> r ∉ probes).
Proof.
  split.
  - intros Hmain. eexists. split; [apply main_with_abort, Hmain |].
    repeat split; reflexivity.
  - destruct (reachable net 0 BASE_URL) eqn:Hmain.
    + exists (csv_requests (new_client 30 O) (matrix_tasks T Q)
              ++ sdf_requests (new_client 30 O) T).
      split; [apply run_trace_requests, Hmain |].
      apply download_request_not_probe.
    + exists []. split.
      * unfold run_trace. rewrite (main_with_abort net float_str O T Q fs0 Hmain).
        reflexivity.
      * intros r Hin. apply elem_of_nil in Hin as [].
Qed.

Lemma unreachable_run_aborts_witness :
  reachable net_unreachable 0 BASE_URL = false /\
  exists tr,
    main net_unreachable str_threshold (init_state ∅) =
      (Ret tt, {| sent := 2; fs := ∅; trace := tr |})
    /\ requests_of tr = probes
    /\ writes_of tr = []
    /\ sleeps_of tr = []
    /\ existsb is_summary (prints_of tr) = false.
Proof.
  split; [reflexivity |].
  apply (proj1 (unreachable_run_aborts net_unreachable str_threshold OUTPUT_DIR THRESHOLDS
                  [50; 70; 95; 100] ∅)).
  reflexivity.
Defined.

(** ** Counters *)

Lemma for_each_app {A B} (l1 l2 : list A) (body : B -> A -> M B) acc s :
  for_each (l1 ++ l2) body acc s =
  bind (for_each l1 body acc) (fun acc' => for_each l2 body acc') s.
Proof.
  revert acc s; induction l1 as [|x l1 IH]; intros acc s; [reflexivity |].
  cbn [app for_each]. unfold bind.
  destruct (body acc x s) as [[acc'|e] s']; [| reflexivity].
  rewrite IH. reflexivity.
Qed.

Lemma csv_download_some_iff net float_str self t q s :
  (exists p s', download_similarity_matrix_csv net float_str self t q s = (Ret (Some p), s'))
  <-> fetch_ok net (sent s) (csv_request self t q) = true.
Proof.
  rewrite download_similarity_matrix_csv_eq. unfold fetch_ok.
  destruct (fetch net (sent s) (csv_request self t q)); split.
  - reflexivity.
  - intros _. eexists _, _. reflexivity.
  - intros (p & s' & [=]).
  - discriminate.
Qed.

Lemma sdf_download_some_iff net float_str self t s :
  (exists p s', download_similarity_sdf net float_str self t s = (Ret (Some p), s'))
  <-> fetch_ok net (sent s) (sdf_request self t) = true.
Proof.
  rewrite download_similarity_sdf_eq. unfold fetch_ok.
  destruct (fetch net (sent s) (sdf_request self t)); split.
  - reflexivity.
  - intros _. eexists _, _. reflexivity.
  - intros (p & s' & [=]).
  - discriminate.
Qed.

Lemma csv_progress_spec net float_str client (T : list float) (Q1 : list Z) q (T1 : list float) s :
  exists c s',
    csv_progress net float_str client T Q1 q T1 s = (Ret c, s')
    /\ sent s' = (sent s + (length T * length Q1 + length T1))%nat
    /\ c = succeeded net (sent s)
             (csv_requests client (matrix_tasks T Q1) ++ map (fun t => csv_request client t q) T1)
    /\ (c <= length T * length Q1 + length T1)%nat.
Proof.
  unfold csv_progress. unfold bind at 1.
  destruct (csv_phase_spec net float_str client T Q1 s) as (evs1 & fs1 & H1 & _).
  rewrite H1. unfold bind at 1. unfold print at 1.
  destruct (for_each_tasks net _ _ _ (csv_body_step net float_str client q) T1
              (succeeded net (sent s) (csv_requests client (matrix_tasks T Q1)))
              (emit (EvPrint (ProcessingQcov q))
                 {| sent := (sent s + length T * length Q1)%nat; fs := fs1;
                    trace := trace s ++ evs1 |}))
    as (evs2 & fs2 & H2 & _).
  rewrite H2. cbn [emit sent fs trace].
  eexists _, _. split; [reflexivity |]. cbn [sent].
  assert (succeeded net (sent s) (csv_requests client (matrix_tasks T Q1)) +
          succeeded net (sent s + length T * length Q1) (map (fun t => csv_request client t q) T1)
          = succeeded net (sent s)
              (csv_requests client (matrix_tasks T Q1) ++ map (fun t => csv_request client t q) T1))%nat
    as Hsum.
  { rewrite succeeded_app. unfold matrix_tasks. rewrite length_csv_requests. reflexivity. }
  split; [lia |]. split; [exact Hsum |].
  rewrite Hsum.
  etransitivity; [apply succeeded_le |].
  rewrite length_app, length_map. unfold matrix_tasks. rewrite length_csv_requests. lia.
Qed.

Lemma csv_phase_factors net float_str client (T1 T2 : list float) (Q1 : list Z) q (Q2 : list Z) s :
  csv_phase net float_str client (T1 ++ T2) (Q1 ++ q :: Q2) s =
  bind (csv_progress net float_str client (T1 ++ T2) Q1 q T1)
    (fun c =>
       bind (for_each T2 (csv_body net float_str client q) c)
         (fun c' =>
            for_each Q2
              (fun csv_count qcov =>
                 print (ProcessingQcov qcov) >>
                 for_each (T1 ++ T2) (csv_body net float_str client qcov) csv_count) c')) s.
Proof.
  unfold csv_progress, csv_phase. rewrite for_each_app. unfold bind.
  destruct (for_each Q1 _ 0%nat s) as [[c|e] s1]; [| reflexivity].
  cbn [for_each]. unfold bind, print. rewrite for_each_app. unfold bind.
  destruct (for_each T1 _ c _) as [[c1|e] s2]; reflexivity.
Qed.

Lemma sdf_phase_factors net float_str client (T1 T2 : list float) s :
  sdf_phase net float_str client (T1 ++ T2) s =
  bind (sdf_phase net float_str client T1)
    (fun c => for_each T2 (sdf_body net float_str client) c) s.
Proof. unfold sdf_phase. apply for_each_app. Qed.

Lemma summary_ends_run net float_str O (T : list float) (Q : list Z) fs0 :
  reachable net 0 BASE_URL = true ->
  exists before fs',
    main_with net float_str O T Q (init_state fs0) =
      (Ret tt,
       {| sent := (2 + length T * length Q + length T)%nat; fs := fs';
          trace := before ++
            map EvPrint
              (summary O T Q
                 (succeeded net 2 (csv_requests (new_client 30 O) (matrix_tasks T Q)))
                 (succeeded net (2 + length T * length Q)
                    (sdf_requests (new_client 30 O) T))) |}).
Proof.
  intros Hmain.
  destruct (main_with_run net float_str O T Q fs0 Hmain) as (evs1 & evs2 & fs' & Hrun & _ & _).
  rewrite Hrun.
  exists (map EvPrint (header O T Q) ++ map EvGet probes ++
          map EvPrint phase1_banner ++ evs1 ++ map EvPrint phase2_banner ++ evs2), fs'.
  rewrite <- !app_assoc. reflexivity.
Qed.

(** C4. A download returns a path exactly when its fetch goes through.  At
    every point of phase 1 (after the rows of the levels [Q1] and the tasks
    of the thresholds [T1] in the row of [q]) the counter is the number of
    the tasks attempted so far whose download returned a path, hence at most
    the number of tasks attempted so far, and the rest of the phase goes on
    from that counter; the same in phase 2 after the thresholds [T1].  The
    two counts of the summary are these numbers over all the tasks of each
    category, at most [|thresholds| * |coverage_levels|] and
    [|thresholds|]. *)
Theorem counts_never_exceed_attempts net float_str O (T : list float) (Q : list Z) fs0 :
  let client := new_client 30 O in
  (forall t q s,
      (exists p s', download_similarity_matrix_csv net float_str client t q s = (Ret (Some p), s'))
      <-> fetch_ok net (sent s) (csv_request client t q) = true)
  /\ (forall t s,
      (exists p s', download_similarity_sdf net float_str client t s = (Ret (Some p), s'))
      <-> fetch_ok net (sent s) (sdf_request client t) = true)
  /\ (forall T1 T2 Q1 q Q2 s, T = T1 ++ T2 -> Q = Q1 ++ q :: Q2 ->
      exists csv_count s',
        csv_progress net float_str client T Q1 q T1 s = (Ret csv_count, s')
        /\ sent s' = (sent s + (length T * length Q1 + length T1))%nat
        /\ csv_count = succeeded net (sent s)
             (csv_requests client (matrix_tasks T Q1) ++ map (fun t => csv_request client t q) T1)
        /\ (csv_count <= length T * length Q1 + length T1)%nat
        /\ csv_phase net float_str client T Q s =
             bind (for_each T2 (csv_body net float_str client q) csv_count)
               (fun c =>
                  for_each Q2
                    (fun csv_count qcov =>
                       print (ProcessingQcov qcov) >>
                       for_each T (csv_body net float_str client qcov) csv_count) c) s')
  /\ (forall T1 T2 s, T = T1 ++ T2 ->
      exists sdf_count s',
        sdf_phase net float_str client T1 s = (Ret sdf_count, s')
        /\ sent s' = (sent s + length T1)%nat
        /\ sdf_count = succeeded net (sent s) (sdf_requests client T1)
        /\ (sdf_count <= length T1)%nat
        /\ sdf_phase net float_str client T s =
             for_each T2 (sdf_body net float_str client) sdf_count s')
  /\ (reachable net 0 BASE_URL = true ->
      exists before fs' csv_count sdf_count,
        main_with net float_str O T Q (init_state fs0) =
          (Ret tt,
           {| sent := (2 + length T * length Q + length T)%nat; fs := fs';
              trace := before ++ map EvPrint (summary O T Q csv_count sdf_count) |})
        /\ csv_count = succeeded net 2 (csv_requests client (matrix_tasks T Q))
        /\ sdf_count = succeeded net (2 + length T * length Q) (sdf_requests client T)
        /\ (csv_count <= length T * length Q)%nat
        /\ (sdf_count <= length T)%nat).
Proof.
  intros client.
  split; [intros; apply csv_download_some_iff |].
  split; [intros; apply sdf_download_some_iff |].
  split; [| split].
  - intros T1 T2 Q1 q Q2 s -> ->.
    destruct (csv_progress_spec net float_str client (T1 ++ T2) Q1 q T1 s)
      as (c & s' & Hprog & Hsent & Hc & Hle).
    exists c, s'. repeat (split; [assumption |]).
    rewrite csv_phase_factors. unfold bind at 1. rewrite Hprog. reflexivity.
  - intros T1 T2 s ->.
    destruct (sdf_phase_spec net float_str client T1 s) as (evs & fs' & Hphase & _).
    eexists _, _. split; [exact Hphase |]. cbn [sent].
    split; [reflexivity |]. split; [reflexivity |].
    split.
    + etransitivity; [apply succeeded_le |]. unfold sdf_requests. rewrite length_map. lia.
    + rewrite sdf_phase_factors. unfold bind. rewrite Hphase. reflexivity.
  - intros Hmain.
    destruct (summary_ends_run net float_str O T Q fs0 Hmain) as (before & fs' & Hrun).
    eexists before, fs', _, _. split; [exact Hrun |].
    split; [reflexivity |]. split; [reflexivity |]. split.
    + etransitivity; [apply succeeded_le |].
      unfold matrix_tasks. rewrite length_csv_requests. lia.
    + etransitivity; [apply succeeded_le |]. unfold sdf_requests. rewrite length_map. lia.
Qed.

Lemma counts_never_exceed_attempts_witness :
  reachable net_flaky 0 BASE_URL = true /\
  exists before fs',
    main net_flaky str_threshold (init_state ∅) =
      (Ret tt,
       {| sent := 32; fs := fs';
          trace := before ++
            map EvPrint (summary OUTPUT_DIR THRESHOLDS [50; 70; 95; 100] 12 3) |}).
Proof.
  split; [reflexivity |].
  pose proof (counts_never_exceed_attempts net_flaky str_threshold OUTPUT_DIR THRESHOLDS
                [50; 70; 95; 100] ∅) as H.
  cbv zeta in H.
  destruct H as (_ & _ & _ & _ & H).
  destruct (H eq_refl) as (before & fs' & c1 & c2 & Hrun & -> & -> & _).
  exists before, fs'. exact Hrun.
Defined.

(** ** What makes a download succeed *)

Lemma is_error_status_iff status : is_error_status status = true <-> 400 <= status < 600.
Proof. unfold is_error_status. rewrite andb_true_iff, Z.leb_le, Z.ltb_lt. reflexivity. Qed.

Lemma fetch_inl_iff net n r resp :
  fetch net n r = inl resp <-> net n r = inl resp /\ ~ (400 <= status_code resp < 600).
Proof.
  unfold fetch. rewrite <- is_error_status_iff.
  destruct (net n r) as [resp'|e].
  - destruct (is_error_status (status_code resp')) eqn:Hst; split.
    + discriminate.
    + intros [[= ->] Hno]. congruence.
    + intros [= ->]. split; [reflexivity | congruence].
    + intros [[= ->] _]. reflexivity.
  - split; [discriminate | intros [[=] _]].
Qed.

(** C5, as the code has it.  [raise_for_status] raises its [HTTPError] for
    the statuses 400 to 599 and for no other.  Neither download lets an
    exception out: a transport error of [session.get] or an [HTTPError]
    becomes the result [None].  So a download returns the written path
    exactly when the request raised no transport error and the status of
    the final response is outside 400 to 599; every 2xx response is such a
    case. *)
Theorem download_path_iff_no_error net float_str self t q s :
  (forall resp s0,
      raise_for_status resp s0 = (Raise (HTTPError (status_code resp)), s0)
      <-> 400 <= status_code resp < 600)
  /\ (forall resp s0,
      raise_for_status resp s0 = (Ret tt, s0) <-> ~ (400 <= status_code resp < 600))
  /\ ((exists s', download_similarity_matrix_csv net float_str self t q s
                  = (Ret (Some (csv_path float_str self t q)), s'))
      <-> exists resp, net (sent s) (csv_request self t q) = inl resp
                       /\ ~ (400 <= status_code resp < 600))
  /\ ((exists s', download_similarity_matrix_csv net float_str self t q s = (Ret None, s'))
      <-> (exists e, net (sent s) (csv_request self t q) = inr e)
          \/ exists resp, net (sent s) (csv_request self t q) = inl resp
                          /\ 400 <= status_code resp < 600)
  /\ ((exists s', download_similarity_sdf net float_str self t s
                  = (Ret (Some (sdf_path float_str self t)), s'))
      <-> exists resp, net (sent s) (sdf_request self t) = inl resp
                       /\ ~ (400 <= status_code resp < 600))
  /\ ((exists s', download_similarity_sdf net float_str self t s = (Ret None, s'))
      <-> (exists e, net (sent s) (sdf_request self t) = inr e)
          \/ exists resp, net (sent s) (sdf_request self t) = inl resp
                          /\ 400 <= status_code resp < 600)
  /\ (forall resp, 200 <= status_code resp < 300 ->
      (net (sent s) (csv_request self t q) = inl resp ->
       exists s', download_similarity_matrix_csv net float_str self t q s
                  = (Ret (Some (csv_path float_str self t q)), s'))
      /\ (net (sent s) (sdf_request self t) = inl resp ->
          exists s', download_similarity_sdf net float_str self t s
                     = (Ret (Some (sdf_path float_str self t)), s'))).
Proof.
  assert (forall r,
    ((exists resp, fetch net (sent s) r = inl resp)
     <-> exists resp, net (sent s) r = inl resp /\ ~ (400 <= status_code resp < 600))
    /\ ((exists e, fetch net (sent s) r = inr e)
        <-> (exists e, net (sent s) r = inr e)
            \/ exists resp, net (sent s) r = inl resp /\ 400 <= status_code resp < 600))
    as Hfetch.
  { intros r. split.
    - split; intros (resp & H); exists resp; apply fetch_inl_iff; exact H.
    - unfold fetch. destruct (net (sent s) r) as [resp|e].
      + destruct (is_error_status (status_code resp)) eqn:Hst; split.
        * intros _. right. exists resp. split; [reflexivity |].
          apply is_error_status_iff, Hst.
        * intros _. eexists; reflexivity.
        * intros (e & [=]).
        * intros [(e & [=]) | (resp' & [= <-] & Herr)].
          apply is_error_status_iff in Herr. congruence.
      + split; [intros _; left; eexists; reflexivity | intros _; eexists; reflexivity]. }
  split; [| split].
  - intros resp s0. unfold raise_for_status. rewrite <- is_error_status_iff.
    destruct (is_error_status (status_code resp)); unfold raise, ret; split;
      congruence.
  - intros resp s0. unfold raise_for_status. rewrite <- is_error_status_iff.
    destruct (is_error_status (status_code resp)); unfold raise, ret; split;
      congruence.
  - split; [| split; [| split; [| split]]].
    + rewrite <- (proj1 (Hfetch _)). rewrite download_similarity_matrix_csv_eq.
      destruct (fetch net (sent s) (csv_request self t q)) as [resp|e]; split.
      * intros _. eexists; reflexivity.
      * intros _. eexists; reflexivity.
      * intros (s' & [=]).
      * intros (resp & [=]).
    + rewrite <- (proj2 (Hfetch _)). rewrite download_similarity_matrix_csv_eq.
      destruct (fetch net (sent s) (csv_request self t q)) as [resp|e]; split.
      * intros (s' & [=]).
      * intros (e & [=]).
      * intros _. eexists; reflexivity.
      * intros _. eexists; reflexivity.
    + rewrite <- (proj1 (Hfetch _)). rewrite download_similarity_sdf_eq.
      destruct (fetch net (sent s) (sdf_request self t)) as [resp|e]; split.
      * intros _. eexists; reflexivity.
      * intros _. eexists; reflexivity.
      * intros (s' & [=]).
      * intros (resp & [=]).
    + rewrite <- (proj2 (Hfetch _)). rewrite download_similarity_sdf_eq.
      destruct (fetch net (sent s) (sdf_request self t)) as [resp|e]; split.
      * intros (s' & [=]).
      * intros (e & [=]).
      * intros _. eexists; reflexivity.
      * intros _. eexists; reflexivity.
    + intros resp H2xx. split; intros Hnet.
      * rewrite download_similarity_matrix_csv_eq.
        rewrite (proj2 (fetch_inl_iff net _ _ resp)) by (split; [exact Hnet | lia]).
        eexists; reflexivity.
      * rewrite download_similarity_sdf_eq.
        rewrite (proj2 (fetch_inl_iff net _ _ resp)) by (split; [exact Hnet | lia]).
        eexists; reflexivity.
Qed.

Lemma download_path_iff_no_error_witness :
  200 <= status_code {| status_code := 200; content := sample_body |} < 300
  /\ exists s',
       download_similarity_sdf net_up str_threshold (new_client 30 OUTPUT_DIR) 0.9 (init_state ∅)
       = (Ret (Some ["platevs_full_dataset"; "similarity_sdf_threshold_0.9.tar.gz"]), s').
Proof.
  assert (200 <= status_code {| status_code := 200; content := sample_body |} < 300) as H2xx
    by (cbn; lia).
  split; [exact H2xx |].
  pose proof (download_path_iff_no_error net_up str_threshold (new_client 30 OUTPUT_DIR)
                0.9%float 100 (init_state ∅)) as H.
  destruct H as (_ & _ & _ & _ & _ & _ & H).
  exact (proj2 (H {| status_code := 200; content := sample_body |} H2xx) eq_refl).
Defined.

(** C5, as stated, fails.  A final response 304 Not Modified is not a 2xx
    response, [raise_for_status] lets it through, and the download writes
    its body and returns the path. *)
Lemma download_returns_path_on_304 :
  let self := new_client 30 OUTPUT_DIR in
  let s := init_state ∅ in
  net_304 (sent s) (csv_request self 0.9 100)
    = inl {| status_code := 304; content := sample_body |}
  /\ raise_for_status {| status_code := 304; content := sample_body |} s = (Ret tt, s)
  /\ fst (download_similarity_matrix_csv net_304 str_threshold self 0.9 100 s)
     = Ret (Some ["platevs_full_dataset"; "similarity_matrix_qcov100_threshold_0.9.csv"])
  /\ ~ (forall net float_str self t q s,
          (exists p s', download_similarity_matrix_csv net float_str self t q s
                        = (Ret (Some p), s'))
          <-> exists resp, net (sent s) (csv_request self t q) = inl resp
                           /\ 200 <= status_code resp < 300).
Proof.
  cbv zeta. split; [reflexivity |]. split; [reflexivity |]. split; [vm_compute; reflexivity |].
  intros Hclaim.
  destruct (proj1 (Hclaim net_304 str_threshold (new_client 30 OUTPUT_DIR) 0.9%float 100
                     (init_state ∅))) as (resp & Hnet & Hst).
  - rewrite download_similarity_matrix_csv_eq. eexists _, _. reflexivity.
  - unfold net_304 in Hnet. injection Hnet as <-. cbn in Hst. lia.
Qed.

(** ** Files *)

Lemma csv_path_under float_str self t q :
  csv_path float_str self t q = output_dir self ++ Path_of (csv_filename float_str t q)
  /\ output_dir self `prefix_of` csv_path float_str self t q.
Proof.
  assert (csv_path float_str self t q = output_dir self ++ Path_of (csv_filename float_str t q))
    as Heq by reflexivity.
  split; [exact Heq |]. rewrite Heq. apply prefix_app_r. reflexivity.
Qed.

Lemma sdf_path_under float_str self t :
  sdf_path float_str self t = output_dir self ++ Path_of (sdf_filename float_str t)
  /\ output_dir self `prefix_of` sdf_path float_str self t.
Proof.
  assert (sdf_path float_str self t = output_dir self ++ Path_of (sdf_filename float_str t))
    as Heq by reflexivity.
  split; [exact Heq |]. rewrite Heq. apply prefix_app_r. reflexivity.
Qed.






Lemma csv_download_ok net float_str self t q s resp :
  fetch net (sent s) (csv_request self t q) = inl resp ->
  exists evs,
    download_similarity_matrix_csv net float_str self t q s =
      (Ret (Some (csv_path float_str self t q)),
       {| sent := S (sent s);
          fs := <[csv_path float_str self t q := content resp]> (fs s);
          trace := trace s ++ evs |})
    /\ writes_of evs = [(csv_path float_str self t q, content resp)]
    /\ requests_of evs = [csv_request self t q].
Proof.
  intros Hfetch. rewrite download_similarity_matrix_csv_eq, Hfetch.
  eexists. split; [reflexivity |].
  unfold warning. destruct (bool_decide (q ∈ QCOV_LEVELS)); split; reflexivity.
Qed.

Lemma sdf_download_ok net float_str self t s resp :
  fetch net (sent s) (sdf_request self t) = inl resp ->
  exists evs,
    download_similarity_sdf net float_str self t s =
      (Ret (Some (sdf_path float_str self t)),
       {| sent := S (sent s);
          fs := <[sdf_path float_str self t := content resp]> (fs s);
          trace := trace s ++ evs |})
    /\ writes_of evs = [(sdf_path float_str self t, content resp)]
    /\ requests_of evs = [sdf_request self t].
Proof.
  intros Hfetch. rewrite download_similarity_sdf_eq, Hfetch.
  eexists. split; [reflexivity |]. split; reflexivity.
Qed.

(** C7. A download that succeeds writes exactly one file.  Its path is the
    output directory of the client followed by a file name computed from the
    threshold (and, for a matrix CSV, the coverage level) alone: any other
    successful download of the same task, in any state and whatever the
    service, returns the same path.  Nothing looks at the files that exist:
    the request is sent in every state, the file at that path then holds the
    new body whatever it held before, and every other file is as it was. *)
Theorem download_writes_one_named_file net float_str self t q s :
  (forall resp, fetch net (sent s) (csv_request self t q) = inl resp ->
     let path := output_dir self ++ Path_of (csv_filename float_str t q) in
     exists evs,
       download_similarity_matrix_csv net float_str self t q s =
         (Ret (Some path),
          {| sent := S (sent s); fs := <[path := content resp]> (fs s);
             trace := trace s ++ evs |})
       /\ writes_of evs = [(path, content resp)]
       /\ requests_of evs = [csv_request self t q]
       /\ output_dir self `prefix_of` path
       /\ (<[path := content resp]> (fs s)) !! path = Some (content resp)
       /\ (forall other, other <> path ->
             (<[path := content resp]> (fs s)) !! other = fs s !! other)
       /\ (forall net2 s2 p2 s2',
             download_similarity_matrix_csv net2 float_str self t q s2 = (Ret (Some p2), s2') ->
             p2 = path))
  /\ (forall resp, fetch net (sent s) (sdf_request self t) = inl resp ->
     let path := output_dir self ++ Path_of (sdf_filename float_str t) in
     exists evs,
       download_similarity_sdf net float_str self t s =
         (Ret (Some path),
          {| sent := S (sent s); fs := <[path := content resp]> (fs s);
             trace := trace s ++ evs |})
       /\ writes_of evs = [(path, content resp)]
       /\ requests_of evs = [sdf_request self t]
       /\ output_dir self `prefix_of` path
       /\ (<[path := content resp]> (fs s)) !! path = Some (content resp)
       /\ (forall other, other <> path ->
             (<[path := content resp]> (fs s)) !! other = fs s !! other)
       /\ (forall net2 s2 p2 s2',
             download_similarity_sdf net2 float_str self t s2 = (Ret (Some p2), s2') ->
             p2 = path)).
Proof.
  split; intros resp Hfetch path.
  - destruct (csv_download_ok net float_str self t q s resp Hfetch) as (evs & Hrun & Hw & Hr).
    destruct (csv_path_under float_str self t q) as [Hpath Hunder].
    fold path in Hpath. rewrite Hpath in *.
    exists evs. repeat (split; [assumption |]).
    split; [apply lookup_insert_eq |].
    split; [intros other Hne; apply lookup_insert_ne; congruence |].
    intros net2 s2 p2 s2' Hrun2. rewrite download_similarity_matrix_csv_eq in Hrun2.
    destruct (fetch net2 (sent s2) (csv_request self t q)); [| discriminate].
    injection Hrun2 as <- _. exact Hpath.
  - destruct (sdf_download_ok net float_str self t s resp Hfetch) as (evs & Hrun & Hw & Hr).
    destruct (sdf_path_under float_str self t) as [Hpath Hunder].
    fold path in Hpath. rewrite Hpath in *.
    exists evs. repeat (split; [assumption |]).
    split; [apply lookup_insert_eq |].
    split; [intros other Hne; apply lookup_insert_ne; congruence |].
    intros net2 s2 p2 s2' Hrun2. rewrite download_similarity_sdf_eq in Hrun2.
    destruct (fetch net2 (sent s2) (sdf_request self t)); [| discriminate].
    injection Hrun2 as <- _. exact Hpath.
Qed.

Lemma download_writes_one_named_file_witness :
  let s := {| sent := 7; fs := fs_with_old_file; trace := [] |} in
  let path := ["platevs_full_dataset"; "similarity_matrix_qcov100_threshold_0.9.csv"] in
  fetch net_up (sent s) (csv_request (new_client 30 OUTPUT_DIR) 0.9 100)
    = inl {| status_code := 200; content := sample_body |}
  /\ fs s !! path = Some [Byte.x6f; Byte.x6c; Byte.x64]
  /\ exists evs,
       download_similarity_matrix_csv net_up str_threshold (new_client 30 OUTPUT_DIR) 0.9 100 s =
         (Ret (Some path),
          {| sent := 8; fs := <[path := sample_body]> (fs s); trace := evs |})
       /\ (<[path := sample_body]> (fs s)) !! path = Some sample_body.
Proof.
  cbv zeta. split; [reflexivity |]. split; [reflexivity |].
  destruct (proj1 (download_writes_one_named_file net_up str_threshold
                     (new_client 30 OUTPUT_DIR) 0.9%float 100
                     {| sent := 7; fs := fs_with_old_file; trace := [] |})
              {| status_code := 200; content := sample_body |} eq_refl)
    as (evs & Hrun & _ & _ & _ & Hfile & _).
  exists evs. split; [exact Hrun | exact Hfile].
Defined.

(** ** Pacing *)

Lemma run_trace_pacing net float_str O (T : list float) (Q : list Z) fs0 :
  reachable net 0 BASE_URL = true ->
  pacing_of (run_trace net float_str O T Q fs0) =
    map EvGet probes
    ++ paced_schedule 0.5 (csv_requests (new_client 30 O) (matrix_tasks T Q))
    ++ paced_schedule 1.0 (sdf_requests (new_client 30 O) T).
Proof.
  intros Hmain. unfold run_trace.
  destruct (main_with_run net float_str O T Q fs0 Hmain) as (evs1 & evs2 & fs' & Hrun & Hp1 & Hp2).
  rewrite Hrun. cbn [snd trace].
  rewrite !pacing_of_app, !pacing_of_prints, Hp1, Hp2.
  cbn [app]. rewrite app_nil_r. reflexivity.
Qed.

(** C8. In a run that has passed the status probe, and whatever the service
    answers, the requests and the pauses alternate in one fixed pattern: the
    two requests of the probe, then each matrix request followed by a pause
    of 0.5 second, then each archive request followed by a pause of 1.0
    second.  These are all the pauses of the run, the two durations are
    constants of the program, and the second is strictly longer. *)
Theorem pauses_are_fixed net float_str O (T : list float) (Q : list Z) fs0 :
  reachable net 0 BASE_URL = true ->
  let client := new_client 30 O in
  pacing_of (run_trace net float_str O T Q fs0) =
    map EvGet probes
    ++ flat_map (fun r => [EvGet r; EvSleep 0.5]) (csv_requests client (matrix_tasks T Q))
    ++ flat_map (fun r => [EvGet r; EvSleep 1.0]) (sdf_requests client T)
  /\ sleeps_of (run_trace net float_str O T Q fs0) =
       repeat 0.5%float (length T * length Q) ++ repeat 1.0%float (length T)
  /\ (0.5 <? 1.0)%float = true.
Proof.
  intros Hmain client.
  pose proof (run_trace_pacing net float_str O T Q fs0 Hmain) as Hp.
  split; [exact Hp |]. split; [| reflexivity].
  rewrite <- sleeps_of_pacing, Hp, !sleeps_of_app, sleeps_of_gets, !sleeps_of_schedule.
  unfold matrix_tasks, sdf_requests. rewrite length_csv_requests, length_map. reflexivity.
Qed.

Lemma pauses_are_fixed_witness :
  reachable net_flaky 0 BASE_URL = true /\
  sleeps_of (run_trace net_flaky str_threshold OUTPUT_DIR [0.0; 0.5; 0.9]%float [50; 100] ∅) =
    [0.5; 0.5; 0.5; 0.5; 0.5; 0.5; 1.0; 1.0; 1.0]%float.
Proof.
  split; [reflexivity |].
  apply (pauses_are_fixed net_flaky str_threshold OUTPUT_DIR [0.0; 0.5; 0.9]%float [50; 100] ∅).
  reflexivity.
Defined.

(** ** Coverage levels outside the standard ones *)

(** C9. A coverage level outside [QCOV_LEVELS] is not refused.  The download
    prints the warning, then sends the request with that very level, and
    returns as for any other level: with the written path as soon as the
    fetch goes through, which a service can make happen. *)
Theorem nonstandard_qcov_only_warns net float_str self t q s :
  q ∉ QCOV_LEVELS ->
  (exists r fs' evs,
     download_similarity_matrix_csv net float_str self t q s =
       (Ret r,
        {| sent := S (sent s); fs := fs';
           trace := trace s ++ EvPrint (WarnQcov q QCOV_LEVELS)
                            :: EvGet (csv_request self t q) :: evs |})
     /\ (forall resp, fetch net (sent s) (csv_request self t q) = inl resp ->
           r = Some (csv_path float_str self t q)
           /\ fs' = <[csv_path float_str self t q := content resp]> (fs s)))
  /\ params (csv_request self t q) = [("threshold", PyFloat t); ("qcov_level", PyInt q)]
  /\ (exists net0 s',
        download_similarity_matrix_csv net0 float_str self t q s =
          (Ret (Some (csv_path float_str self t q)), s')
        /\ is_Some (fs s' !! csv_path float_str self t q)).
Proof.
  intros Hq.
  assert (warning q = [EvPrint (WarnQcov q QCOV_LEVELS)]) as Hwarn.
  { unfold warning. rewrite bool_decide_eq_false_2 by exact Hq. reflexivity. }
  split; [| split; [reflexivity |]].
  - rewrite download_similarity_matrix_csv_eq, Hwarn.
    destruct (fetch net (sent s) (csv_request self t q)) as [resp|e];
      eexists _, _, _; (split; [reflexivity |]).
    + intros resp' [= <-]. split; reflexivity.
    + intros resp' [=].
  - exists net_up. rewrite download_similarity_matrix_csv_eq.
    eexists. split; [reflexivity |]. cbn [fs content]. rewrite lookup_insert_eq. eauto.
Qed.

Lemma nonstandard_qcov_only_warns_witness :
  (80 ∉ QCOV_LEVELS) /\
  exists r fs' evs,
    download_similarity_matrix_csv net_up str_threshold (new_client 30 OUTPUT_DIR) 0.9 80
      (init_state ∅)
    = (Ret r,
       {| sent := 1; fs := fs';
          trace := EvPrint (WarnQcov 80 QCOV_LEVELS)
                   :: EvGet (csv_request (new_client 30 OUTPUT_DIR) 0.9 80) :: evs |})
    /\ r = Some ["platevs_full_dataset"; "similarity_matrix_qcov80_threshold_0.9.csv"].
Proof.
  assert (80 ∉ QCOV_LEVELS) as Hq.
  { intros Hin. apply (bool_decide_eq_true_2 _) in Hin. discriminate Hin. }
  split; [exact Hq |].
  destruct (proj1 (nonstandard_qcov_only_warns net_up str_threshold
                     (new_client 30 OUTPUT_DIR) 0.9%float 80 (init_state ∅) Hq))
    as (r & fs' & evs & Hrun & Hok).
  exists r, fs', evs. split; [exact Hrun |].
  exact (proj1 (Hok {| status_code := 200; content := sample_body |} eq_refl)).
Defined.

(** ** The status probe *)

(** C10. [check_service_status] always returns, with a dictionary whose keys
    are ['main'] and ['api'] and whose values are booleans: [True] for a
    response 200, [False] for any other response and for a transport error.
    [main] looks at the entry ['main'] only: when it is [True] the run
    requests every task, whatever the entry ['api'], and when it is [False]
    the run stops after the probe. *)
Theorem status_probe_is_total net float_str self s O (T : list float) (Q : list Z) fs0 :
  (exists status s',
     check_service_status net self s = (Ret status, s')
     /\ status !! "main" = Some (reachable net (sent s) BASE_URL)
     /\ status !! "api" = Some (reachable net (S (sent s)) (API_URL +:+ "/health"))
     /\ dom status = {[ "main"; "api" ]})
  /\ (forall n u e, net n (probe_request u) = inr e -> reachable net n u = false)
  /\ (forall n u resp, net n (probe_request u) = inl resp ->
        reachable net n u = Z.eqb (status_code resp) 200)
  /\ (reachable net 0 BASE_URL = true ->
        requests_of (run_trace net float_str O T Q fs0) =
          probes ++ csv_requests (new_client 30 O) (matrix_tasks T Q)
                 ++ sdf_requests (new_client 30 O) T)
  /\ (reachable net 0 BASE_URL = false ->
        requests_of (run_trace net float_str O T Q fs0) = probes).
Proof.
  split; [| split; [| split; [| split]]].
  - rewrite check_service_status_eq. eexists _, _. split; [reflexivity |].
    split; [rewrite lookup_insert_ne by discriminate; apply lookup_insert_eq |].
    split; [apply lookup_insert_eq |].
    rewrite !dom_insert_L, dom_empty_L. set_solver.
  - intros n u e Hnet. unfold reachable. rewrite Hnet. reflexivity.
  - intros n u resp Hnet. unfold reachable. rewrite Hnet. reflexivity.
  - apply run_trace_requests.
  - intros Hmain. unfold run_trace.
    rewrite (main_with_abort net float_str O T Q fs0 Hmain). reflexivity.
Qed.

Lemma status_probe_is_total_witness :
  reachable net_api_down 0 BASE_URL = true
  /\ reachable net_api_down 1 (API_URL +:+ "/health") = false
  /\ length (requests_of (run_trace net_api_down str_threshold OUTPUT_DIR THRESHOLDS
                            [50; 70; 95; 100] ∅)) = 32%nat.
Proof.
  split; [reflexivity |]. split; [reflexivity |].
  pose proof (status_probe_is_total net_api_down str_threshold (new_client 30 OUTPUT_DIR)
                (init_state ∅) OUTPUT_DIR THRESHOLDS [50; 70; 95; 100] ∅) as H.
  destruct H as (_ & _ & _ & Hrun & _).
  rewrite (Hrun eq_refl). reflexivity.
Defined.

(** ** The files of a run *)

Lemma writes_of_app tr1 tr2 : writes_of (tr1 ++ tr2) = writes_of tr1 ++ writes_of tr2.
Proof. apply omap_app. Qed.

Lemma writes_of_print o tr : writes_of (EvPrint o :: tr) = writes_of tr.
Proof. reflexivity. Qed.

Lemma writes_of_get r tr : writes_of (EvGet r :: tr) = writes_of tr.
Proof. reflexivity. Qed.

Lemma writes_of_prints (os : list output) : writes_of (map EvPrint os) = [].
Proof. induction os as [|o os IH]; [reflexivity | exact IH]. Qed.

Lemma writes_of_gets (rs : list request) : writes_of (map EvGet rs) = [].
Proof. induction rs as [|r rs IH]; [reflexivity | exact IH]. Qed.

Lemma apply_writes_app ws1 ws2 m :
  apply_writes (ws1 ++ ws2) m = apply_writes ws2 (apply_writes ws1 m).
Proof. apply foldl_app. Qed.

Lemma written_app net n l1 l2 :
  written net n (l1 ++ l2) = written net n l1 ++ written net (n + length l1) l2.
Proof.
  revert n; induction l1 as [|[r p] l1 IH]; intros n; cbn [app written length].
  - rewrite Nat.add_0_r. reflexivity.
  - rewrite IH, <- app_assoc. do 3 f_equal. lia.
Qed.

Section Journal.

Variable net : nat -> request -> Response + transport_error.
Variable float_str : float -> string.

Lemma for_each_journal {A} (req : A -> request) (dest : A -> Path) body :
  task_journal net req dest body ->
  forall (l : list A) c s, exists c' evs,
    for_each l body c s =
      (Ret c',
       {| sent := (sent s + length l)%nat;
          fs := apply_writes (written net (sent s) (map (fun x => (req x, dest x)) l)) (fs s);
          trace := trace s ++ evs |})
    /\ writes_of evs = written net (sent s) (map (fun x => (req x, dest x)) l).
Proof.
  intros Hstep l; induction l as [|x l IH]; intros c s.
  - exists c, []. cbn. unfold ret. rewrite app_nil_r, Nat.add_0_r.
    destruct s; split; reflexivity.
  - destruct (Hstep c x s) as (c1 & evs1 & Hbody & Hw1).
    cbn [for_each]. unfold bind at 1. rewrite Hbody.
    destruct (IH c1 {| sent := S (sent s);
                       fs := apply_writes (task_write net (sent s) (req x) (dest x)) (fs s);
                       trace := trace s ++ evs1 |})
      as (c2 & evs2 & Hrest & Hw2).
    rewrite Hrest. cbn [sent fs trace] in *.
    exists c2, (evs1 ++ evs2). split.
    + cbn [map written length]. rewrite apply_writes_app, <- app_assoc.
      replace (sent s + S (length l))%nat with (S (sent s) + length l)%nat by lia.
      reflexivity.
    + rewrite writes_of_app, Hw1, Hw2. reflexivity.
Qed.

Lemma csv_body_journal client q :
  task_journal net (fun t => csv_request client t q)
    (fun t => csv_path float_str client t q) (csv_body net float_str client q).
Proof.
  intros c t s. unfold csv_body, task_write. run_monad.
  rewrite download_similarity_matrix_csv_eq. cbn [sent fs trace].
  unfold warning.
  destruct (fetch net (sent s) (csv_request client t q)) as [resp|e]; run_monad;
    eexists _, _; (split; [reflexivity |]);
    destruct (bool_decide (q ∈ QCOV_LEVELS)); reflexivity.
Qed.

Lemma sdf_body_journal client :
  task_journal net (sdf_request client) (sdf_path float_str client)
    (sdf_body net float_str client).
Proof.
  intros c t s. unfold sdf_body, task_write. run_monad.
  rewrite download_similarity_sdf_eq. cbn [sent fs trace].
  destruct (fetch net (sent s) (sdf_request client t)) as [resp|e]; run_monad;
    eexists _, _; (split; reflexivity).
Qed.

Lemma csv_jobs_cons client (q : Z) (Q : list Z) (T : list float) :
  csv_jobs float_str client (list_prod (q :: Q) T) =
  map (fun t => (csv_request client t q, csv_path float_str client t q)) T
  ++ csv_jobs float_str client (list_prod Q T).
Proof. unfold csv_jobs. cbn [list_prod]. rewrite map_app, map_map. reflexivity. Qed.

Lemma length_csv_jobs client (Q : list Z) (T : list float) :
  length (csv_jobs float_str client (list_prod Q T)) = (length T * length Q)%nat.
Proof. unfold csv_jobs. rewrite length_map, length_prod. lia. Qed.

Lemma csv_rows_journal client (T : list float) (Q : list Z) :
  forall c s, exists c' evs,
    for_each Q
      (fun csv_count qcov =>
         print (ProcessingQcov qcov) >>
         for_each T (csv_body net float_str client qcov) csv_count) c s =
      (Ret c',
       {| sent := (sent s + length T * length Q)%nat;
          fs := apply_writes (written net (sent s) (csv_jobs float_str client (list_prod Q T))) (fs s);
          trace := trace s ++ evs |})
    /\ writes_of evs = written net (sent s) (csv_jobs float_str client (list_prod Q T)).
Proof.
  induction Q as [|q Q IH]; intros c s.
  - exists c, []. cbn. unfold ret. rewrite app_nil_r, Nat.mul_0_r, Nat.add_0_r.
    destruct s; split; reflexivity.
  - cbn [for_each]. unfold bind at 1. unfold bind at 1. unfold print at 1.
    destruct (for_each_journal _ _ _ (csv_body_journal client q) T c
                (emit (EvPrint (ProcessingQcov q)) s)) as (c1 & evs1 & Hrow & Hw1).
    rewrite Hrow. cbn [emit sent fs trace] in *.
    destruct (IH c1 {| sent := (sent s + length T)%nat;
                       fs := apply_writes
                               (written net (sent s)
                                  (map (fun t => (csv_request client t q,
                                                  csv_path float_str client t q)) T)) (fs s);
                       trace := (trace s ++ [EvPrint (ProcessingQcov q)]) ++ evs1 |})
      as (c2 & evs2 & Hrest & Hw2).
    rewrite Hrest. cbn [sent fs trace] in *.
    exists c2, (EvPrint (ProcessingQcov q) :: evs1 ++ evs2). split.
    + rewrite csv_jobs_cons, written_app, apply_writes_app, length_map.
      rewrite <- !app_assoc. cbn [app length].
      replace (sent s + (length T + length T * length Q))%nat
        with (sent s + length T + length T * length Q)%nat by lia.
      replace (length T * S (length Q))%nat with (length T + length T * length Q)%nat by lia.
      replace (sent s + (length T + length T * length Q))%nat
        with (sent s + length T + length T * length Q)%nat by lia.
      reflexivity.
    + change (writes_of (EvPrint (ProcessingQcov q) :: evs1 ++ evs2))
        with (writes_of (evs1 ++ evs2)).
      rewrite writes_of_app, Hw1, Hw2, csv_jobs_cons, written_app, length_map. reflexivity.
Qed.

(** The files and the writes of a whole run. *)
Lemma main_with_journal O (T : list float) (Q : list Z) fs0 :
  reachable net 0 BASE_URL = true ->
  exists evs,
    main_with net float_str O T Q (init_state fs0) =
      (Ret tt,
       {| sent := (2 + length T * length Q + length T)%nat;
          fs := apply_writes (written net 2 (run_jobs float_str O T Q)) fs0;
          trace := evs |})
    /\ writes_of evs = written net 2 (run_jobs float_str O T Q).
Proof.
  intros Hmain. unfold main_with, init_state. run_monad.
  rewrite check_service_status_eq.
  rewrite lookup_insert_ne by discriminate. rewrite lookup_insert_eq.
  cbn [sent fs trace]. cbv beta iota delta [default from_option id].
  rewrite Hmain. cbv beta iota delta [negb]. cbn [sent fs trace].
  unfold csv_phase.
  match goal with |- context [for_each Q ?body 0%nat ?s] =>
    destruct (csv_rows_journal (new_client 30 O) T Q 0%nat s) as (c1 & evs1 & H1 & Hw1) end.
  rewrite H1. cbn [sent fs trace] in *.
  unfold sdf_phase.
  match goal with |- context [for_each T ?body 0%nat ?s] =>
    destruct (for_each_journal _ _ _ (sdf_body_journal (new_client 30 O)) T 0%nat s)
      as (c2 & evs2 & H2 & Hw2) end.
  rewrite H2. cbn [sent fs trace] in *.
  eexists. split.
  - unfold run_jobs, matrix_tasks, sdf_jobs.
    rewrite written_app, apply_writes_app, length_csv_jobs. reflexivity.
  - rewrite <- !app_assoc. cbn [app].
    rewrite !writes_of_print, !writes_of_get, !writes_of_print, writes_of_app, Hw1,
      !writes_of_print, writes_of_app, Hw2.
    unfold run_jobs, matrix_tasks, sdf_jobs. rewrite written_app, length_csv_jobs.
    change (writes_of _) with (@nil (Path * list Byte.byte)).
    rewrite app_nil_r. reflexivity.
Qed.

End Journal.

(** ** File names *)

Lemma mentions_app c a b : mentions c (a +:+ b) = mentions c a || mentions c b.
Proof.
  induction a as [|c' a IH]; [reflexivity |].
  simpl. rewrite IH, orb_assoc. reflexivity.
Qed.

Lemma mentions_pretty_N_go c x s :
  (forall d, Ascii.eqb c (pretty_N_char d) = false) ->
  mentions c (pretty_N_go x s) = mentions c s.
Proof.
  intros Hc. revert s. induction (N.lt_wf_0 x) as [x _ IH]; intros s.
  destruct (decide (x = 0%N)) as [-> | Hx]; [reflexivity |].
  rewrite pretty_N_go_step by lia.
  rewrite IH by (apply N.div_lt; lia).
  cbn. rewrite Hc. reflexivity.
Qed.

Lemma mentions_pretty_Z c (z : Z) :
  (forall d, Ascii.eqb c (pretty_N_char d) = false) ->
  Ascii.eqb c "-" = false ->
  mentions c (pretty z) = false.
Proof.
  intros Hc Hdash.
  assert (mentions c "0" = false) as H0.
  { pose proof (Hc 0%N) as H. simpl in *. rewrite H. reflexivity. }
  assert (forall n : N, mentions c (pretty n) = false) as HN.
  { intros n. unfold pretty, pretty_N. destruct (decide (n = 0%N)).
    - exact H0.
    - apply mentions_pretty_N_go, Hc. }
  destruct z as [|p|p]; unfold pretty, pretty_Z.
  - exact H0.
  - apply HN.
  - simpl. rewrite Hdash. apply HN.
Qed.

Lemma slash_not_digit d : Ascii.eqb "/" (pretty_N_char d) = false.
Proof. unfold pretty_N_char. repeat case_match; reflexivity. Qed.

Lemma underscore_not_digit d : Ascii.eqb "_" (pretty_N_char d) = false.
Proof. unfold pretty_N_char. repeat case_match; reflexivity. Qed.

Lemma pieces_plain s : mentions "/" s = false -> pieces s = [s].
Proof.
  induction s as [|c s IH]; [reflexivity |].
  cbn [mentions pieces]. intros H. apply orb_false_iff in H as [Hc Hs].
  rewrite Ascii.eqb_sym, Hc, (IH Hs). reflexivity.
Qed.

(** A name without separator that is neither empty nor ["."] is one part. *)
Lemma Path_of_plain s :
  mentions "/" s = false -> kept_piece s = true -> Path_of s = [s].
Proof.
  intros Hs Hk. unfold Path_of. rewrite (pieces_plain s Hs).
  assert (is_absolute s = false) as ->.
  { destruct s as [|c s]; [reflexivity |]. cbn [mentions is_absolute] in *.
    apply orb_false_iff in Hs as [Hc _]. rewrite Ascii.eqb_sym. exact Hc. }
  cbn [app]. rewrite filter_cons_True by (rewrite Hk; exact I). reflexivity.
Qed.

Lemma str_length_app a b : String.length (a +:+ b) = (String.length a + String.length b)%nat.
Proof. induction a as [|c a IH]; [reflexivity |]. simpl. rewrite IH. reflexivity. Qed.

Lemma str_app_cancel_r a a' e : a +:+ e = a' +:+ e -> a = a'.
Proof.
  revert a'; induction a as [|c a IH]; intros [|c' a'] H.
  - reflexivity.
  - apply (f_equal String.length) in H. rewrite !str_length_app in H. simpl in H. lia.
  - apply (f_equal String.length) in H. rewrite !str_length_app in H. simpl in H. lia.
  - simpl in H. injection H as -> H. f_equal. apply IH, H.
Qed.

(** Two texts cut at the first occurrence of a character. *)
Lemma str_sep_inj c a1 b1 a2 b2 :
  mentions c a1 = false -> mentions c a2 = false ->
  a1 +:+ String c b1 = a2 +:+ String c b2 -> a1 = a2 /\ b1 = b2.
Proof.
  revert a2; induction a1 as [|x a1 IH]; intros [|y a2] H1 H2 H; simpl in *.
  - injection H as ->. split; reflexivity.
  - injection H as -> _. rewrite Ascii.eqb_refl in H2. discriminate.
  - injection H as -> _. rewrite Ascii.eqb_refl in H1. discriminate.
  - injection H as -> H.
    apply orb_false_iff in H1 as [_ H1]. apply orb_false_iff in H2 as [_ H2].
    destruct (IH a2 H1 H2 H) as [-> ->]. split; reflexivity.
Qed.

Section FileNames.

Variable float_str : float -> string.

Lemma csv_filename_plain t q :
  mentions "/" (float_str t) = false ->
  mentions "/" (csv_filename float_str t q) = false
  /\ kept_piece (csv_filename float_str t q) = true.
Proof.
  intros Ht. split; [| reflexivity].
  unfold csv_filename. rewrite !mentions_app, Ht.
  rewrite (mentions_pretty_Z "/" q slash_not_digit eq_refl). reflexivity.
Qed.

Lemma sdf_filename_plain t :
  mentions "/" (float_str t) = false ->
  mentions "/" (sdf_filename float_str t) = false
  /\ kept_piece (sdf_filename float_str t) = true.
Proof.
  intros Ht. split; [| reflexivity].
  unfold sdf_filename. rewrite !mentions_app, Ht. reflexivity.
Qed.

Lemma csv_path_plain self t q :
  mentions "/" (float_str t) = false ->
  csv_path float_str self t q = output_dir self ++ [csv_filename float_str t q].
Proof.
  intros Ht. destruct (csv_filename_plain t q Ht) as [Hs Hk].
  rewrite (proj1 (csv_path_under float_str self t q)), (Path_of_plain _ Hs Hk). reflexivity.
Qed.

Lemma sdf_path_plain self t :
  mentions "/" (float_str t) = false ->
  sdf_path float_str self t = output_dir self ++ [sdf_filename float_str t].
Proof.
  intros Ht. destruct (sdf_filename_plain t Ht) as [Hs Hk].
  rewrite (proj1 (sdf_path_under float_str self t)), (Path_of_plain _ Hs Hk). reflexivity.
Qed.

Lemma csv_filename_inj t q t' q' :
  csv_filename float_str t q = csv_filename float_str t' q' ->
  q = q' /\ float_str t = float_str t'.
Proof.
  unfold csv_filename. intros H.
  apply (inj (String.app "similarity_matrix_qcov")) in H.
  change ("_threshold_" +:+ float_str t +:+ ".csv")
    with (String "_" ("threshold_" +:+ float_str t +:+ ".csv")) in H.
  change ("_threshold_" +:+ float_str t' +:+ ".csv")
    with (String "_" ("threshold_" +:+ float_str t' +:+ ".csv")) in H.
  apply str_sep_inj in H as [Hq Hrest];
    try (apply mentions_pretty_Z; [apply underscore_not_digit | reflexivity]).
  split; [apply (inj pretty), Hq |].
  apply (inj (String.app "threshold_")) in Hrest.
  apply str_app_cancel_r in Hrest. exact Hrest.
Qed.

Lemma sdf_filename_inj t t' :
  sdf_filename float_str t = sdf_filename float_str t' -> float_str t = float_str t'.
Proof.
  unfold sdf_filename. intros H.
  apply (inj (String.app "similarity_sdf_threshold_")) in H.
  apply str_app_cancel_r in H. exact H.
Qed.

Lemma csv_filename_not_sdf t q t' :
  csv_filename float_str t q <> sdf_filename float_str t'.
Proof. unfold csv_filename, sdf_filename. cbn. discriminate. Qed.

End FileNames.

(** ** What a run leaves on the disk *)

Lemma apply_writes_lookup_notin ws m p :
  p ∉ map fst ws -> apply_writes ws m !! p = m !! p.
Proof.
  revert m; induction ws as [|[p' d] ws IH]; intros m Hp; [reflexivity |].
  cbn [apply_writes foldl map fst snd] in *.
  apply not_elem_of_cons in Hp as [Hne Hp].
  fold (apply_writes ws (<[p' := d]> m)). rewrite (IH _ Hp).
  apply lookup_insert_ne. congruence.
Qed.

Lemma apply_writes_lookup_in ws m p d :
  NoDup (map fst ws) -> (p, d) ∈ ws -> apply_writes ws m !! p = Some d.
Proof.
  revert m; induction ws as [|[p' d'] ws IH]; intros m Hnd Hin.
  - apply elem_of_nil in Hin as [].
  - cbn [apply_writes foldl map fst snd] in *.
    fold (apply_writes ws (<[p' := d']> m)).
    apply NoDup_cons in Hnd as [Hfresh Hnd].
    apply elem_of_cons in Hin as [[= -> ->] | Hin].
    + rewrite (apply_writes_lookup_notin _ _ _ Hfresh). apply lookup_insert_eq.
    + apply IH; assumption.
Qed.

Lemma elem_of_written net n jobs p d :
  (p, d) ∈ written net n jobs
  <-> exists i r resp,
        jobs !! i = Some (r, p) /\ fetch net (n + i) r = inl resp /\ d = content resp.
Proof.
  revert n; induction jobs as [|[r0 p0] jobs IH]; intros n; cbn [written].
  - split; [intros H; apply elem_of_nil in H as [] | intros (i & r & resp & H & _); discriminate].
  - rewrite elem_of_app, IH. unfold task_write. split.
    + intros [H | (i & r & resp & Hi & Hf & Hd)].
      * destruct (fetch net n r0) as [resp|e] eqn:Hf.
        -- apply list_elem_of_singleton in H as [= -> ->].
           exists 0%nat, r0, resp. rewrite Nat.add_0_r. auto.
        -- apply elem_of_nil in H as [].
      * exists (S i), r, resp. split; [exact Hi |].
        split; [| exact Hd]. rewrite <- Hf. f_equal. lia.
    + intros ([|i] & r & resp & Hi & Hf & Hd).
      * cbn in Hi. injection Hi as -> ->. rewrite Nat.add_0_r in Hf. rewrite Hf.
        left. subst d. apply list_elem_of_singleton. reflexivity.
      * right. exists i, r, resp. split; [exact Hi |].
        split; [| exact Hd]. rewrite <- Hf. f_equal. lia.
Qed.

Lemma written_fst_sublist net n jobs :
  map fst (written net n jobs) `sublist_of` map snd jobs.
Proof.
  revert n; induction jobs as [|[r p] jobs IH]; intros n; cbn [written map snd].
  - constructor.
  - rewrite map_app. unfold task_write.
    destruct (fetch net n r); cbn [map fst app].
    + apply sublist_skip, IH.
    + apply sublist_cons, IH.
Qed.

Section RunFiles.

Variable net : nat -> request -> Response + transport_error.
Variable float_str : float -> string.


Lemma run_jobs_lookup_csv O (T : list float) (Q : list Z) i j q t :
  Q !! i = Some q -> T !! j = Some t ->
  run_jobs float_str O T Q !! (i * length T + j)%nat
  = Some (csv_request (new_client 30 O) t q, csv_path float_str (new_client 30 O) t q).
Proof.
  intros Hq Ht. unfold run_jobs, csv_jobs, matrix_tasks.
  assert (list_prod Q T !! (i * length T + j)%nat = Some (q, t)) as Hl
    by (apply lookup_list_prod; assumption).
  rewrite lookup_app_l by (rewrite length_map; eapply lookup_lt_Some; exact Hl).
  rewrite list_lookup_fmap, Hl. reflexivity.
Qed.

Lemma run_jobs_lookup_sdf O (T : list float) (Q : list Z) j t :
  T !! j = Some t ->
  run_jobs float_str O T Q !! (length T * length Q + j)%nat
  = Some (sdf_request (new_client 30 O) t, sdf_path float_str (new_client 30 O) t).
Proof.
  intros Ht. unfold run_jobs, matrix_tasks.
  rewrite lookup_app_r by (rewrite length_csv_jobs; lia).
  rewrite length_csv_jobs.
  replace (length T * length Q + j - length T * length Q)%nat with j by lia.
  unfold sdf_jobs. rewrite list_lookup_fmap, Ht. reflexivity.
Qed.

Lemma elem_of_list_prod_both {A B} (l1 : list A) (l2 : list B) a b :
  (a, b) ∈ list_prod l1 l2 -> a ∈ l1 /\ b ∈ l2.
Proof. rewrite !list_elem_of_In. apply in_prod_iff. Qed.

Lemma singleton_eq {A} (x y : A) : [x] = [y] -> x = y.
Proof. intros H. exact (f_equal (fun l => match l with a :: _ => a | [] => x end) H). Qed.

Lemma NoDup_fmap_member {A B} (f : A -> B) (l : list A) x y :
  NoDup (map f l) -> x ∈ l -> y ∈ l -> f x = f y -> x = y.
Proof.
  intros Hnd Hx Hy Hf.
  apply list_elem_of_lookup in Hx as [i Hi]. apply list_elem_of_lookup in Hy as [j Hj].
  assert (i = j) as ->.
  { apply (NoDup_lookup (map f l) i j (f x) Hnd).
    - rewrite list_lookup_fmap, Hi. reflexivity.
    - rewrite list_lookup_fmap, Hj, Hf. reflexivity. }
  congruence.
Qed.

(** With thresholds that print differently and without separator, and
    coverage levels that differ, no two downloads of a run share a file. *)
Lemma run_jobs_NoDup O (T : list float) (Q : list Z) :
  NoDup Q -> NoDup (map float_str T) ->
  (forall t, t ∈ T -> mentions "/" (float_str t) = false) ->
  NoDup (map snd (run_jobs float_str O T Q)).
Proof.
  intros HQ HT Hplain. set (client := new_client 30 O).
  assert (NoDup T) as HT' by (apply (NoDup_fmap_1 float_str), HT).
  unfold run_jobs, csv_jobs, sdf_jobs, matrix_tasks. fold client.
  rewrite map_app, !map_map. apply NoDup_app. split; [| split].
  - induction HQ as [|q Q Hq HQ IH]; [constructor |].
    cbn [list_prod]. rewrite map_app, map_map. apply NoDup_app. split; [| split].
    + apply NoDup_fmap_2_strong; [| exact HT']. cbn [snd].
      intros t t' Ht Ht' Heq.
      rewrite !csv_path_plain in Heq by (apply Hplain; assumption).
      apply app_inv_head, singleton_eq in Heq.
      apply csv_filename_inj in Heq as [_ Heq].
      apply (NoDup_fmap_member float_str T); assumption.
    + intros p Hp Hp'.
      apply list_elem_of_fmap in Hp as (t & -> & Ht).
      apply list_elem_of_fmap in Hp' as ([q' t'] & Heq & Hin). cbn [snd] in Heq.
      apply elem_of_list_prod_both in Hin as [Hq' Ht'].
      rewrite !csv_path_plain in Heq by (apply Hplain; assumption).
      apply app_inv_head, singleton_eq in Heq.
      apply csv_filename_inj in Heq as [-> _]. contradiction.
    + exact IH.
  - intros p Hp Hp'.
    apply list_elem_of_fmap in Hp as ([q t] & -> & Hin). cbn [snd] in *.
    apply elem_of_list_prod_both in Hin as [_ Ht].
    apply list_elem_of_fmap in Hp' as (t' & Heq & Ht'). cbn [snd] in Heq.
    rewrite csv_path_plain, sdf_path_plain in Heq by (apply Hplain; assumption).
    apply app_inv_head, singleton_eq in Heq.
    exact (csv_filename_not_sdf float_str t q t' Heq).
  - apply NoDup_fmap_2_strong; [| exact HT']. cbn [snd].
    intros t t' Ht Ht' Heq.
    rewrite !sdf_path_plain in Heq by (apply Hplain; assumption).
    apply app_inv_head, singleton_eq in Heq.
    apply sdf_filename_inj in Heq.
    apply (NoDup_fmap_member float_str T); assumption.
Qed.

End RunFiles.

Lemma run_files_eq net float_str O (T : list float) (Q : list Z) fs0 :
  run_files net float_str O T Q fs0 =
  if reachable net 0 BASE_URL
  then apply_writes (written net 2 (run_jobs float_str O T Q)) fs0
  else fs0.
Proof.
  unfold run_files. destruct (reachable net 0 BASE_URL) eqn:Hmain.
  - destruct (main_with_journal net float_str O T Q fs0 Hmain) as (evs & Hrun & _).
    rewrite Hrun. reflexivity.
  - rewrite (main_with_abort net float_str O T Q fs0 Hmain). reflexivity.
Qed.

(** X1. The files after a run are the files before it with one write for
    each task whose fetch went through, replayed in the order of the tasks:
    the body of the response of the task, at the path of the task.  These
    are all the writes of the run; a task whose fetch failed writes nothing,
    and a run that the probe stops leaves the files as they were. *)
Theorem run_files_are_fetched_bodies net float_str O (T : list float) (Q : list Z) fs0 :
  let jobs := run_jobs float_str O T Q in
  (reachable net 0 BASE_URL = true ->
     run_files net float_str O T Q fs0 = apply_writes (written net 2 jobs) fs0
     /\ writes_of (run_trace net float_str O T Q fs0) = written net 2 jobs)
  /\ (reachable net 0 BASE_URL = false ->
     run_files net float_str O T Q fs0 = fs0
     /\ writes_of (run_trace net float_str O T Q fs0) = [])
  /\ (forall p d,
     (p, d) ∈ written net 2 jobs
     <-> exists i r resp,
           jobs !! i = Some (r, p) /\ fetch net (2 + i) r = inl resp /\ d = content resp).
Proof.
  intros jobs. split; [| split].
  - intros Hmain. split.
    + rewrite run_files_eq, Hmain. reflexivity.
    + unfold run_trace.
      destruct (main_with_journal net float_str O T Q fs0 Hmain) as (evs & Hrun & Hw).
      rewrite Hrun. exact Hw.
  - intros Hmain. split.
    + rewrite run_files_eq, Hmain. reflexivity.
    + unfold run_trace. rewrite (main_with_abort net float_str O T Q fs0 Hmain).
      cbn [snd trace]. rewrite !writes_of_app, writes_of_prints, writes_of_gets. reflexivity.
  - intros p d. apply elem_of_written.
Qed.

Lemma run_files_are_fetched_bodies_witness :
  reachable net_flaky 0 BASE_URL = true /\
  writes_of (run_trace net_flaky str_threshold OUTPUT_DIR [0.0; 0.5]%float [100] ∅) =
    [ (["platevs_full_dataset"; "similarity_matrix_qcov100_threshold_0.0.csv"], sample_body);
      (["platevs_full_dataset"; "similarity_sdf_threshold_0.0.tar.gz"], sample_body) ].
Proof.
  split; [reflexivity |].
  rewrite (proj2 (proj1 (run_files_are_fetched_bodies net_flaky str_threshold OUTPUT_DIR
                           [0.0; 0.5]%float [100] ∅) eq_refl)).
  vm_compute. reflexivity.
Defined.



(** X3. When the coverage levels differ from one another and the thresholds
    print differently and without separator, no download of a run
    overwrites the file of another: after a run that has passed the probe,
    the file of every task whose fetch went through holds the body of its
    own response, and the file of every task whose fetch failed holds what
    it held before the run. *)
Theorem run_keeps_every_fetched_body net float_str O (T : list float) (Q : list Z) fs0 :
  NoDup Q -> NoDup (map float_str T) ->
  (forall t, t ∈ T -> mentions "/" (float_str t) = false) ->
  reachable net 0 BASE_URL = true ->
  let client := new_client 30 O in
  let files := run_files net float_str O T Q fs0 in
  (forall i j q t, Q !! i = Some q -> T !! j = Some t ->
     files !! csv_path float_str client t q =
       match fetch net (2 + (i * length T + j)) (csv_request client t q) with
       | inl resp => Some (content resp)
       | inr _ => fs0 !! csv_path float_str client t q
       end)
  /\ (forall j t, T !! j = Some t ->
     files !! sdf_path float_str client t =
       match fetch net (2 + (length T * length Q + j)) (sdf_request client t) with
       | inl resp => Some (content resp)
       | inr _ => fs0 !! sdf_path float_str client t
       end).
Proof.
  intros HQ HT Hplain Hmain client files.
  pose proof (run_jobs_NoDup float_str O T Q HQ HT Hplain) as Hnd.
  assert (forall k r p, run_jobs float_str O T Q !! k = Some (r, p) ->
            files !! p = match fetch net (2 + k) r with
                         | inl resp => Some (content resp)
                         | inr _ => fs0 !! p
                         end) as Hjob.
  { intros k r p Hk. unfold files. rewrite run_files_eq, Hmain.
    destruct (fetch net (2 + k) r) as [resp|e] eqn:Hf.
    - apply apply_writes_lookup_in.
      + eapply sublist_NoDup; [exact Hnd | apply written_fst_sublist].
      + apply elem_of_written. exists k, r, resp. auto.
    - apply apply_writes_lookup_notin. intros Hin.
      apply list_elem_of_fmap in Hin as ([p' d] & Hp & Hin). cbn [fst] in Hp. subst p'.
      apply elem_of_written in Hin as (k' & r' & resp & Hk' & Hf' & _).
      assert (k' = k) as ->.
      { apply (NoDup_lookup _ k' k p Hnd); rewrite list_lookup_fmap.
        - rewrite Hk'. reflexivity.
        - rewrite Hk. reflexivity. }
      rewrite Hk in Hk'. injection Hk' as <-. congruence. }
  split.
  - intros i j q t Hq Ht. apply Hjob, run_jobs_lookup_csv; assumption.
  - intros j t Ht. apply Hjob, run_jobs_lookup_sdf; assumption.
Qed.

Lemma run_keeps_every_fetched_body_witness :
  NoDup [50; 70; 95; 100] /\ NoDup (map str_threshold THRESHOLDS) /\
  (forall t, t ∈ THRESHOLDS -> mentions "/" (str_threshold t) = false) /\
  reachable net_flaky 0 BASE_URL = true /\
  run_files net_flaky str_threshold OUTPUT_DIR THRESHOLDS [50; 70; 95; 100] ∅
    !! csv_path str_threshold (new_client 30 OUTPUT_DIR) 0.3 70 = Some sample_body.
Proof.
  assert (NoDup [50; 70; 95; 100]) as HQ by (apply (bool_decide_eq_true_1 _); reflexivity).
  assert (NoDup (map str_threshold THRESHOLDS)) as HT
    by (apply (bool_decide_eq_true_1 _); reflexivity).
  assert (forall t, t ∈ THRESHOLDS -> mentions "/" (str_threshold t) = false) as Hplain.
  { intros t Ht. unfold THRESHOLDS in Ht.
    repeat (apply elem_of_cons in Ht as [-> | Ht]; [reflexivity |]).
    apply elem_of_nil in Ht as []. }
  split; [exact HQ |]. split; [exact HT |]. split; [exact Hplain |].
  split; [reflexivity |].
  exact (proj1 (run_keeps_every_fetched_body net_flaky str_threshold OUTPUT_DIR THRESHOLDS
                  [50; 70; 95; 100] ∅ HQ HT Hplain eq_refl) 1%nat 2%nat 70 0.3%float
           eq_refl eq_refl).
Defined.

(** ** The other downloads of the client *)

Section ClientFacts.

Variable net : nat -> request -> Response + transport_error.
Variable net_post : nat -> post_request -> Response + transport_error.
Variable float_str : float -> string.

Lemma lift_download_csv self t q xs :
  lift (download_similarity_matrix_csv net float_str self t q) xs =
  (Ret (download_result net (xsent xs) (csv_request self t q) (csv_path float_str self t q)),
   {| xsent := S (xsent xs);
      xfs := apply_writes (task_write net (xsent xs) (csv_request self t q)
                             (csv_path float_str self t q)) (xfs xs);
      xtrace := xtrace xs ++ map Base
        (warning q ++ EvGet (csv_request self t q) ::
         match fetch net (xsent xs) (csv_request self t q) with
         | inl resp => [EvWrite (csv_path float_str self t q) (content resp);
                        EvPrint (DownloadedCsv (csv_path float_str self t q))]
         | inr e => [EvPrint (ErrorCsv e)]
         end) |}).
Proof.
  unfold lift, download_result, task_write.
  rewrite download_similarity_matrix_csv_eq. cbn [sent fs trace].
  destruct (fetch net (xsent xs) (csv_request self t q)); reflexivity.
Qed.

Lemma lift_download_sdf self t xs :
  lift (download_similarity_sdf net float_str self t) xs =
  (Ret (download_result net (xsent xs) (sdf_request self t) (sdf_path float_str self t)),
   {| xsent := S (xsent xs);
      xfs := apply_writes (task_write net (xsent xs) (sdf_request self t)
                             (sdf_path float_str self t)) (xfs xs);
      xtrace := xtrace xs ++ map Base
        (EvGet (sdf_request self t) ::
         match fetch net (xsent xs) (sdf_request self t) with
         | inl resp => [EvWrite (sdf_path float_str self t) (content resp);
                        EvPrint (DownloadedSdf (sdf_path float_str self t))]
         | inr e => [EvPrint (ErrorSdf e)]
         end) |}).
Proof.
  unfold lift, download_result, task_write.
  rewrite download_similarity_sdf_eq. cbn [sent fs trace].
  destruct (fetch net (xsent xs) (sdf_request self t)); reflexivity.
Qed.

End ClientFacts.

Lemma base_events_app tr1 tr2 : base_events (tr1 ++ tr2) = base_events tr1 ++ base_events tr2.
Proof. apply omap_app. Qed.

Lemma base_events_Base (evs : list event) : base_events (map Base evs) = evs.
Proof.
  induction evs as [|e evs IH]; [reflexivity |].
  cbn. unfold base_events in IH. rewrite IH. reflexivity.
Qed.

Lemma base_events_cons_Base e tr : base_events (Base e :: tr) = e :: base_events tr.
Proof. reflexivity. Qed.

Lemma base_events_cons_print o tr : base_events (EvPrintX o :: tr) = base_events tr.
Proof. reflexivity. Qed.

Lemma base_events_cons_post r tr : base_events (EvPost r :: tr) = base_events tr.
Proof. reflexivity. Qed.

Lemma posts_of_cons_Base e tr : posts_of (Base e :: tr) = posts_of tr.
Proof. reflexivity. Qed.

Lemma posts_of_cons_print o tr : posts_of (EvPrintX o :: tr) = posts_of tr.
Proof. reflexivity. Qed.

Lemma posts_of_app tr1 tr2 : posts_of (tr1 ++ tr2) = posts_of tr1 ++ posts_of tr2.
Proof. apply omap_app. Qed.

Lemma posts_of_Base (evs : list event) : posts_of (map Base evs) = [].
Proof. induction evs as [|e evs IH]; [reflexivity | exact IH]. Qed.

(** Unfolds the operations of the monad of the whole client. *)
(** Pushes the projections of a trace of the whole client to its parts. *)
Ltac split_trace :=
  repeat (rewrite base_events_app || rewrite base_events_Base
          || rewrite base_events_cons_Base || rewrite base_events_cons_print
          || rewrite base_events_cons_post
          || rewrite posts_of_app || rewrite posts_of_Base
          || rewrite posts_of_cons_Base || rewrite posts_of_cons_print).

Ltac run_client :=
  cbv beta iota zeta delta [xbind xtry_except xret xprint session_post path_exists
                            st_size_positive];
  cbn [xsent xfs xtrace].

Section SimilarityData.

Variable net : nat -> request -> Response + transport_error.
Variable float_str : float -> string.

Lemma written_similarity_cons self q n t ts :
  written net n (similarity_jobs float_str self q (t :: ts)) =
  task_write net n (csv_request self t q) (csv_path float_str self t q)
  ++ task_write net (S n) (sdf_request self t) (sdf_path float_str self t)
  ++ written net (S (S n)) (similarity_jobs float_str self q ts).
Proof. reflexivity. Qed.

(** The loop of [download_all_similarity_data], from any dictionary and
    state. *)
Lemma download_all_loop self q (ts : list float) :
  forall d xs, exists evs,
    xfor_each ts
      (fun results threshold =>
         xbind (xprint (DownloadingThreshold threshold)) (fun _ =>
         xbind (lift (download_similarity_matrix_csv net float_str self threshold q)) (fun c =>
         xbind (lift (download_similarity_sdf net float_str self threshold)) (fun a =>
         xbind (lift (sleep 1)) (fun _ =>
         xret (dict_set threshold {| csv := c; sdf := a |} results)))))) d xs =
      (Ret (foldl (fun d kv => dict_set (fst kv) (snd kv) d) d
              (similarity_results net float_str self q (xsent xs) ts)),
       {| xsent := (xsent xs + 2 * length ts)%nat;
          xfs := apply_writes (written net (xsent xs) (similarity_jobs float_str self q ts))
                   (xfs xs);
          xtrace := xtrace xs ++ evs |})
    /\ pacing_of (base_events evs) =
         flat_map (fun t => [EvGet (csv_request self t q); EvGet (sdf_request self t);
                             EvSleep 1]) ts
    /\ posts_of evs = [].
Proof.
  match goal with |- context [xfor_each ts ?b] => set (body := b) end.
  induction ts as [|t ts IH]; intros d xs.
  - exists []. cbn. unfold xret. rewrite app_nil_r, Nat.add_0_r.
    destruct xs; repeat split; reflexivity.
  - cbn [xfor_each]. unfold xbind at 1. unfold body at 1. run_client.
    rewrite lift_download_csv. cbn [xsent xfs xtrace].
    rewrite lift_download_sdf. cbn [xsent xfs xtrace].
    unfold lift at 1. cbn [sleep emit sent fs trace xsent xfs xtrace app map].
    match goal with |- context [xfor_each ts ?body ?d' ?xs'] =>
      destruct (IH d' xs') as (evs & Hrest & Hp & Hposts) end.
    rewrite Hrest. cbn [xsent xfs xtrace].
    eexists. split; [| split].
    + rewrite written_similarity_cons, !apply_writes_app. cbn [similarity_results foldl fst snd length].
      rewrite <- !app_assoc.
      replace (xsent xs + 2 * S (length ts))%nat with (S (S (xsent xs)) + 2 * length ts)%nat by lia.
      reflexivity.
    + split_trace. change (base_events []) with (@nil event).
      rewrite !pacing_of_app, pacing_of_warning, Hp.
      destruct (fetch net (xsent xs) (csv_request self t q));
        destruct (fetch net (S (xsent xs)) (sdf_request self t)); reflexivity.
    + split_trace. rewrite Hposts. reflexivity.
Qed.

End SimilarityData.

(** ** The dictionary of results *)

Lemma dict_set_fresh {V} k (v : V) d :
  existsb (fun kv => PrimFloat.eqb (fst kv) k) d = false -> dict_set k v d = d ++ [(k, v)].
Proof. unfold dict_set. intros ->. reflexivity. Qed.

Lemma dict_get_app_fresh {V} k (d1 d2 : list (float * V)) :
  existsb (fun kv => PrimFloat.eqb (fst kv) k) d1 = false ->
  dict_get k (d1 ++ d2) = dict_get k d2.
Proof.
  induction d1 as [|[k' v] d1 IH]; [reflexivity |].
  cbn [existsb fst app dict_get]. intros H. apply orb_false_iff in H as [Hk H].
  rewrite Hk. apply IH, H.
Qed.

Section Results.

Variable net : nat -> request -> Response + transport_error.
Variable float_str : float -> string.
Variable self : PlateVSClient.
Variable q : Z.

Lemma similarity_results_keys n ts :
  map fst (similarity_results net float_str self q n ts) = ts.
Proof.
  revert n; induction ts as [|t ts IH]; intros n; [reflexivity |].
  cbn [similarity_results map fst]. rewrite IH. reflexivity.
Qed.

Lemma existsb_keys {V} k (d : list (float * V)) :
  existsb (fun kv => PrimFloat.eqb (fst kv) k) d
  = existsb (fun k' => PrimFloat.eqb k' k) (map fst d).
Proof. induction d as [|kv d IH]; [reflexivity |]. cbn. rewrite IH. reflexivity. Qed.

(** With keys that differ, the dictionary is the list of the results. *)
Lemma dict_of_distinct_results ts :
  forall n d,
    distinct_keys (map fst d ++ ts) = true ->
    foldl (fun d kv => dict_set (fst kv) (snd kv) d) d
      (similarity_results net float_str self q n ts)
    = d ++ similarity_results net float_str self q n ts.
Proof.
  induction ts as [|t ts IH]; intros n d Hd.
  - cbn. rewrite app_nil_r. reflexivity.
  - cbn [similarity_results foldl fst snd].
    assert (existsb (fun kv => PrimFloat.eqb (fst kv) t) d = false) as Hfresh.
    { rewrite existsb_keys. clear IH. induction (map fst d) as [|k ks IHk]; [reflexivity |].
      cbn [app distinct_keys existsb] in *.
      apply andb_true_iff in Hd as [Hk Hd].
      rewrite forallb_app in Hk. apply andb_true_iff in Hk as [_ Hk].
      cbn [forallb] in Hk. apply andb_true_iff in Hk as [Hk _].
      apply negb_true_iff in Hk. rewrite Hk. apply IHk, Hd. }
    rewrite (dict_set_fresh _ _ _ Hfresh), IH.
    + rewrite <- app_assoc. reflexivity.
    + rewrite map_app, <- app_assoc. exact Hd.
Qed.

Lemma dict_get_distinct_results ts :
  forall n j t,
    distinct_keys ts = true -> no_nan ts = true -> ts !! j = Some t ->
    dict_get t (similarity_results net float_str self q n ts)
    = Some {| csv := download_result net (n + 2 * j) (csv_request self t q)
                       (csv_path float_str self t q);
              sdf := download_result net (S (n + 2 * j)) (sdf_request self t)
                       (sdf_path float_str self t) |}.
Proof.
  induction ts as [|t0 ts IH]; intros n j t Hd Hn Hj; [discriminate |].
  cbn [distinct_keys no_nan forallb] in Hd, Hn.
  apply andb_true_iff in Hd as [Hfirst Hd]. apply andb_true_iff in Hn as [Ht0 Hn].
  cbn [similarity_results dict_get]. destruct j as [|j]; cbn in Hj.
  - injection Hj as ->. rewrite Ht0, Nat.mul_0_r, Nat.add_0_r. reflexivity.
  - assert (PrimFloat.eqb t0 t = false) as ->.
    { apply list_elem_of_lookup_2 in Hj. rewrite forallb_forall in Hfirst.
      apply negb_true_iff, Hfirst, list_elem_of_In, Hj. }
    rewrite (IH (S (S n)) j t Hd Hn Hj).
    replace (S (S n) + 2 * j)%nat with (n + 2 * S j)%nat by lia. reflexivity.
Qed.

End Results.


(** X5. When the thresholds are numbers that differ from one another, the
    dictionary that [download_all_similarity_data] returns has one item for
    each threshold, in the order of the list; the item of the [j]-th
    threshold holds, under ['csv'] and ['sdf'], the results of the requests
    number [2 j] and [2 j + 1] of the call: the path of the file when the
    fetch went through, [None] when it failed. *)
Theorem download_all_similarity_data_results net float_str self
    (thresholds : list float) qcov_level xs :
  distinct_keys thresholds = true -> no_nan thresholds = true ->
  let results := similarity_results net float_str self qcov_level (xsent xs) thresholds in
  (exists xs', download_all_similarity_data net float_str self thresholds qcov_level xs
               = (Ret results, xs'))
  /\ map fst results = thresholds
  /\ (forall j t, thresholds !! j = Some t ->
        dict_get t results
        = Some {| csv := download_result net (xsent xs + 2 * j)
                           (csv_request self t qcov_level)
                           (csv_path float_str self t qcov_level);
                  sdf := download_result net (S (xsent xs + 2 * j)) (sdf_request self t)
                           (sdf_path float_str self t) |})
  /\ (forall n r p, download_result net n r p = Some p <-> fetch_ok net n r = true)
  /\ (forall n r p, download_result net n r p = None <-> fetch_ok net n r = false).
Proof.
  intros Hd Hn results.
  split; [| split; [| split; [| split]]].
  - destruct (download_all_loop net float_str self qcov_level thresholds [] xs)
      as (evs & Hrun & _).
    rewrite dict_of_distinct_results in Hrun by exact Hd.
    eexists. exact Hrun.
  - apply similarity_results_keys.
  - intros j t Hj. apply dict_get_distinct_results; assumption.
  - intros n r p. unfold download_result, fetch_ok.
    destruct (fetch net n r); split; congruence.
  - intros n r p. unfold download_result, fetch_ok.
    destruct (fetch net n r); split; congruence.
Qed.

Lemma download_all_similarity_data_results_witness :
  distinct_keys [0.9; 0.7; 0.5]%float = true /\ no_nan [0.9; 0.7; 0.5]%float = true /\
  exists xs',
    download_all_similarity_data net_flaky str_threshold (new_client 30 "./platevs_data")
      [0.9; 0.7; 0.5]%float 100 (init_xstate ∅)
    = (Ret [ (0.9%float, {| csv := Some ["platevs_data"; "similarity_matrix_qcov100_threshold_0.9.csv"];
                            sdf := Some ["platevs_data"; "similarity_sdf_threshold_0.9.tar.gz"] |});
             (0.7%float, {| csv := Some ["platevs_data"; "similarity_matrix_qcov100_threshold_0.7.csv"];
                            sdf := None |});
             (0.5%float, {| csv := Some ["platevs_data"; "similarity_matrix_qcov100_threshold_0.5.csv"];
                            sdf := None |}) ],
       xs').
Proof.
  split; [reflexivity |]. split; [reflexivity |].
  exact (proj1 (download_all_similarity_data_results net_flaky str_threshold
                  (new_client 30 "./platevs_data") [0.9; 0.7; 0.5]%float 100 (init_xstate ∅)
                  eq_refl eq_refl)).
Defined.

(** ** Affinity data *)

Lemma mentions_replace_self old new s :
  Ascii.eqb old new = false -> mentions old (replace_char old new s) = false.
Proof.
  intros Hne. induction s as [|c s IH]; [reflexivity |].
  cbn [replace_char mentions]. rewrite IH, orb_false_r.
  destruct (Ascii.eqb c old) eqn:Hc; [exact Hne |].
  rewrite Ascii.eqb_sym. exact Hc.
Qed.

Lemma mentions_replace_other c old new s :
  Ascii.eqb c new = false -> mentions c s = false ->
  mentions c (replace_char old new s) = false.
Proof.
  intros Hne. induction s as [|x s IH]; [reflexivity |].
  cbn [replace_char mentions]. intros H. apply orb_false_iff in H as [Hx Hs].
  rewrite (IH Hs), orb_false_r. destruct (Ascii.eqb x old); assumption.
Qed.

Lemma mentions_str_take c n s : mentions c s = false -> mentions c (str_take n s) = false.
Proof.
  revert n; induction s as [|x s IH]; intros [|n] H; try reflexivity.
  cbn [str_take mentions] in *. apply orb_false_iff in H as [Hx Hs].
  rewrite Hx, (IH n Hs). reflexivity.
Qed.

Lemma length_str_take n s : String.length (str_take n s) = Nat.min n (String.length s).
Proof.
  revert n; induction s as [|x s IH]; intros [|n]; try reflexivity.
  cbn [str_take String.length]. rewrite IH. reflexivity.
Qed.

Lemma str_take_all n s : (String.length s <= n)%nat -> str_take n s = s.
Proof.
  revert n; induction s as [|x s IH]; intros [|n] H; try reflexivity.
  - cbn in H. lia.
  - cbn [str_take]. rewrite IH by (cbn in H; lia). reflexivity.
Qed.

Lemma str_take_app n a b : (n <= String.length a)%nat -> str_take n (a +:+ b) = str_take n a.
Proof.
  revert n; induction a as [|x a IH]; intros [|n] H; try reflexivity.
  - cbn in H. lia.
  - simpl. rewrite IH by (cbn in H; lia). reflexivity.
Qed.

Lemma replace_char_app old new a b :
  replace_char old new (a +:+ b) = replace_char old new a +:+ replace_char old new b.
Proof. induction a as [|x a IH]; [reflexivity |]. simpl. rewrite IH. reflexivity. Qed.

Lemma length_replace_char old new s :
  String.length (replace_char old new s) = String.length s.
Proof. induction s as [|x s IH]; [reflexivity |]. simpl. rewrite IH. reflexivity. Qed.

Lemma replace_char_absent old new s :
  mentions old s = false -> replace_char old new s = s.
Proof.
  induction s as [|x s IH]; [reflexivity |].
  cbn [mentions replace_char]. intros H. apply orb_false_iff in H as [Hx Hs].
  rewrite Ascii.eqb_sym, Hx, (IH Hs). reflexivity.
Qed.

Lemma safe_query_plain query :
  mentions "/" (safe_query query) = false
  /\ mentions "\" (safe_query query) = false
  /\ (String.length (safe_query query) <= 50)%nat.
Proof.
  unfold safe_query. split; [| split].
  - apply mentions_str_take, mentions_replace_other; [reflexivity |].
    apply mentions_replace_self. reflexivity.
  - apply mentions_str_take, mentions_replace_self. reflexivity.
  - rewrite length_str_take. lia.
Qed.

Lemma safe_query_long query more :
  (50 <= String.length query)%nat -> safe_query (query +:+ more) = safe_query query.
Proof.
  intros Hlen. unfold safe_query. rewrite !replace_char_app.
  apply str_take_app. rewrite !length_replace_char. exact Hlen.
Qed.

Lemma safe_query_slash query :
  safe_query (replace_char "/" "_" query) = safe_query query.
Proof.
  unfold safe_query. f_equal. f_equal.
  apply replace_char_absent, mentions_replace_self. reflexivity.
Qed.

Lemma safe_query_id query :
  mentions "/" query = false -> mentions "\" query = false ->
  (String.length query <= 50)%nat -> safe_query query = query.
Proof.
  intros H1 H2 Hlen. unfold safe_query.
  rewrite (replace_char_absent "/" "_" query H1), (replace_char_absent "\" "_" query H2).
  apply str_take_all, Hlen.
Qed.

Lemma affinity_filters_supported query query_type filters :
  affinity_filters query query_type = Some filters ->
  query_type = "uniprot" \/ query_type = "smiles".
Proof.
  unfold affinity_filters.
  destruct (String.eqb query_type "uniprot") eqn:H1;
    [left; apply String.eqb_eq, H1 |].
  destruct (String.eqb query_type "smiles") eqn:H2;
    [right; apply String.eqb_eq, H2 | discriminate].
Qed.

(** The file of a supported query is one part under the output directory. *)
Lemma affinity_path_plain self query query_type filters :
  affinity_filters query query_type = Some filters ->
  affinity_path self query query_type = output_dir self ++ [affinity_filename query_type query]
  /\ mentions "/" (affinity_filename query_type query) = false.
Proof.
  intros Hsup. destruct (safe_query_plain query) as (Hslash & _ & _).
  assert (mentions "/" (affinity_filename query_type query) = false
          /\ kept_piece (affinity_filename query_type query) = true
          /\ is_absolute (affinity_filename query_type query) = false) as (Hs & Hk & Ha).
  { unfold affinity_filename.
    destruct (affinity_filters_supported _ _ _ Hsup) as [-> | ->];
      (split; [rewrite !mentions_app, Hslash; reflexivity | split; reflexivity]). }
  split; [| exact Hs].
  unfold affinity_path, truediv. rewrite Ha, (Path_of_plain _ Hs Hk). reflexivity.
Qed.

Section Affinity.

Variable net_post : nat -> post_request -> Response + transport_error.

Lemma download_affinity_data_eq self query query_type xs :
  download_affinity_data net_post self query query_type xs =
  match affinity_filters query query_type with
  | None =>
      (Ret None,
       {| xsent := xsent xs; xfs := xfs xs;
          xtrace := xtrace xs ++ [EvPrintX (UnsupportedQueryType query_type)] |})
  | Some filters =>
      match fetch_post net_post (xsent xs) (affinity_request self filters) with
      | inl resp =>
          (Ret (Some (affinity_path self query query_type)),
           {| xsent := S (xsent xs);
              xfs := <[affinity_path self query query_type := content resp]> (xfs xs);
              xtrace := xtrace xs ++
                [EvPost (affinity_request self filters);
                 Base (EvWrite (affinity_path self query query_type) (content resp));
                 EvPrintX (DownloadedAffinity (affinity_path self query query_type))] |})
      | inr e =>
          (Ret None,
           {| xsent := S (xsent xs); xfs := xfs xs;
              xtrace := xtrace xs ++
                [EvPost (affinity_request self filters); EvPrintX (ErrorAffinity e)] |})
      end
  end.
Proof.
  unfold download_affinity_data, affinity_filters, affinity_path.
  destruct (String.eqb query_type "uniprot");
    [| destruct (String.eqb query_type "smiles")];
    try (run_client; rewrite <- ?app_assoc; reflexivity);
    unfold fetch_post;
    match goal with |- context [affinity_request self ?f] =>
      destruct (net_post (xsent xs) (affinity_request self f)) as [resp|e] eqn:Hnet end;
    try destruct (is_error_status (status_code resp)) eqn:Hst;
    run_client; rewrite Hnet; unfold lift, raise_for_status, write_file;
    cbn [sent fs trace xsent xfs xtrace]; rewrite ?Hst;
    cbv beta iota zeta delta [raise ret]; cbn [sent fs trace xsent xfs xtrace map app];
    rewrite <- ?app_assoc; reflexivity.
Qed.

End Affinity.



(** X7. Whatever the query, the file that [download_affinity_data] writes is
    a direct child of the output directory: its name holds no ['/'], the
    part of the name that comes from the query holds no ['/'] and no
    backslash and has at most 50 characters, and after the call the file
    holds the body of the response.  A query without these two characters
    and of at most 50 characters is used in the name as it is. *)
Theorem affinity_file_stays_in_output_dir net_post self query query_type xs p xs' :
  download_affinity_data net_post self query query_type xs = (Ret (Some p), xs') ->
  p = output_dir self ++ [affinity_filename query_type query]
  /\ mentions "/" (affinity_filename query_type query) = false
  /\ mentions "/" (safe_query query) = false
  /\ mentions "\" (safe_query query) = false
  /\ (String.length (safe_query query) <= 50)%nat
  /\ (exists resp, xfs xs' !! p = Some (content resp)
                   /\ xfs xs' = <[p := content resp]> (xfs xs))
  /\ (mentions "/" query = false -> mentions "\" query = false ->
      (String.length query <= 50)%nat -> safe_query query = query).
Proof.
  rewrite download_affinity_data_eq. intros Hrun.
  destruct (affinity_filters query query_type) as [filters|] eqn:Hf; [| discriminate].
  destruct (fetch_post net_post (xsent xs) (affinity_request self filters)) as [resp|e];
    [| discriminate].
  injection Hrun as <- <-.
  destruct (affinity_path_plain self query query_type filters Hf) as [Hpath Hname].
  destruct (safe_query_plain query) as (H1 & H2 & H3).
  repeat (split; [assumption |]).
  split; [| apply safe_query_id].
  exists resp. cbn [xfs]. split; [apply lookup_insert_eq | reflexivity].
Qed.

Lemma affinity_file_stays_in_output_dir_witness :
  exists xs',
    download_affinity_data net_post_up (new_client 30 "./platevs_data")
      "../../etc/passwd" "smiles" (init_xstate ∅)
    = (Ret (Some ["platevs_data"; "affinity_smiles_.._.._etc_passwd.csv"]), xs')
    /\ ["platevs_data"; "affinity_smiles_.._.._etc_passwd.csv"]
       = output_dir (new_client 30 "./platevs_data")
         ++ [affinity_filename "smiles" "../../etc/passwd"].
Proof.
  assert (exists xs',
            download_affinity_data net_post_up (new_client 30 "./platevs_data")
              "../../etc/passwd" "smiles" (init_xstate ∅)
            = (Ret (Some ["platevs_data"; "affinity_smiles_.._.._etc_passwd.csv"]), xs'))
    as [xs' Hrun].
  { eexists. rewrite download_affinity_data_eq. reflexivity. }
  exists xs'. split; [exact Hrun |].
  exact (proj1 (affinity_file_stays_in_output_dir net_post_up (new_client 30 "./platevs_data")
                  "../../etc/passwd" "smiles" (init_xstate ∅) _ xs' Hrun)).
Defined.

(** X8. Different queries can share a file.  A query of 50 characters or
    more and any longer query that starts with it have the same file name,
    and so have a query and the query with ['_'] for every ['/'].  When two
    queries of one type have the same file name and both downloads are
    served, one after the other, the file holds the body of the second
    response: the first one is lost. *)
Theorem affinity_queries_share_files net_post self query1 query2 query_type xs :
  (forall query more, (50 <= String.length query)%nat ->
     affinity_filename query_type (query +:+ more) = affinity_filename query_type query)
  /\ (forall query,
     affinity_filename query_type (replace_char "/" "_" query)
     = affinity_filename query_type query)
  /\ (affinity_filename query_type query1 = affinity_filename query_type query2 ->
      forall filters1 filters2 resp1 resp2,
        affinity_filters query1 query_type = Some filters1 ->
        affinity_filters query2 query_type = Some filters2 ->
        fetch_post net_post (xsent xs) (affinity_request self filters1) = inl resp1 ->
        fetch_post net_post (S (xsent xs)) (affinity_request self filters2) = inl resp2 ->
        exists xs',
          xbind (download_affinity_data net_post self query1 query_type)
            (fun _ => download_affinity_data net_post self query2 query_type) xs
          = (Ret (Some (affinity_path self query1 query_type)), xs')
          /\ xfs xs' !! affinity_path self query1 query_type = Some (content resp2)
          /\ xsent xs' = S (S (xsent xs))).
Proof.
  split; [| split].
  - intros query more Hlen. unfold affinity_filename.
    rewrite (safe_query_long query more Hlen). reflexivity.
  - intros query. unfold affinity_filename. rewrite safe_query_slash. reflexivity.
  - intros Hname filters1 filters2 resp1 resp2 Hf1 Hf2 Hp1 Hp2.
    assert (affinity_path self query2 query_type = affinity_path self query1 query_type) as Hpath
      by (unfold affinity_path; rewrite Hname; reflexivity).
    unfold xbind. rewrite download_affinity_data_eq, Hf1, Hp1.
    rewrite download_affinity_data_eq, Hf2. cbn [xsent xfs xtrace]. rewrite Hp2, Hpath.
    eexists. split; [reflexivity |]. cbn [xfs xsent].
    split; [apply lookup_insert_eq | reflexivity].
Qed.

Lemma affinity_queries_share_files_witness :
  affinity_filename "smiles" "CC(/C)=C/C" = affinity_filename "smiles" "CC(_C)=C_C" /\
  exists xs',
    xbind (download_affinity_data
             net_post_numbered
             (new_client 30 "./platevs_data") "CC(/C)=C/C" "smiles")
      (fun _ => download_affinity_data
                  net_post_numbered
                  (new_client 30 "./platevs_data") "CC(_C)=C_C" "smiles") (init_xstate ∅)
    = (Ret (Some ["platevs_data"; "affinity_smiles_CC(_C)=C_C.csv"]), xs')
    /\ xfs xs' !! ["platevs_data"; "affinity_smiles_CC(_C)=C_C.csv"] = Some [Byte.x32].
Proof.
  split; [reflexivity |].
  destruct (proj2 (proj2 (affinity_queries_share_files
                            net_post_numbered
                            (new_client 30 "./platevs_data") "CC(/C)=C/C" "CC(_C)=C_C"
                            "smiles" (init_xstate ∅)))
              eq_refl _ _ {| status_code := 200; content := [Byte.x31] |}
              {| status_code := 200; content := [Byte.x32] |} eq_refl eq_refl eq_refl eq_refl)
    as (xs' & Hrun & Hfile & _).
  exists xs'. split; [exact Hrun | exact Hfile].
Defined.

(** ** The tests of the downloads *)

Section Tests.

Variable net : nat -> request -> Response + transport_error.
Variable float_str : float -> string.



End Tests.



(** ** The summary and the files *)

Lemma length_written net n jobs :
  length (written net n jobs) = succeeded net n (map fst jobs).
Proof.
  revert n; induction jobs as [|[r p] jobs IH]; intros n; [reflexivity |].
  cbn [written map fst succeeded]. rewrite length_app, IH.
  unfold task_write, fetch_ok. destruct (fetch net n r); reflexivity.
Qed.

Lemma csv_jobs_requests float_str client tasks :
  map fst (csv_jobs float_str client tasks) = csv_requests client tasks.
Proof.
  unfold csv_jobs, csv_requests. rewrite map_map. apply map_ext. intros [q t]. reflexivity.
Qed.

Lemma sdf_jobs_requests float_str client (T : list float) :
  map fst (sdf_jobs float_str client T) = sdf_requests client T.
Proof. unfold sdf_jobs, sdf_requests. rewrite map_map. reflexivity. Qed.

(** X10. The two counts that the summary prints are the numbers of files
    that the run has written in each phase: the writes of a run that has
    passed the probe are those of phase 1, as many as the count of CSVs,
    followed by those of phase 2, as many as the count of SDFs, and the
    summary is printed after the last of them. *)
Theorem summary_counts_are_writes net float_str O (T : list float) (Q : list Z) fs0 :
  reachable net 0 BASE_URL = true ->
  let client := new_client 30 O in
  let csv_writes := written net 2 (csv_jobs float_str client (matrix_tasks T Q)) in
  let sdf_writes := written net (2 + length T * length Q) (sdf_jobs float_str client T) in
  exists before fs',
    main_with net float_str O T Q (init_state fs0) =
      (Ret tt,
       {| sent := (2 + length T * length Q + length T)%nat; fs := fs';
          trace := before ++
            map EvPrint (summary O T Q (length csv_writes) (length sdf_writes)) |})
    /\ writes_of before = csv_writes ++ sdf_writes
    /\ (forall p d, (p, d) ∈ csv_writes ->
          exists q t, p = csv_path float_str client t q)
    /\ (forall p d, (p, d) ∈ sdf_writes -> exists t, p = sdf_path float_str client t).
Proof.
  intros Hmain client csv_writes sdf_writes.
  destruct (summary_ends_run net float_str O T Q fs0 Hmain) as (before & fs' & Hrun).
  destruct (main_with_journal net float_str O T Q fs0 Hmain) as (evs & Hrun' & Hw).
  exists before, fs'. split; [| split; [| split]].
  - rewrite Hrun. unfold csv_writes, sdf_writes.
    rewrite !length_written, csv_jobs_requests, sdf_jobs_requests. reflexivity.
  - rewrite Hrun in Hrun'.
    apply (f_equal (fun x => trace (snd x))) in Hrun'. cbn [snd trace] in Hrun'.
    rewrite <- Hrun' in Hw.
    rewrite writes_of_app, writes_of_prints, app_nil_r in Hw. rewrite Hw.
    unfold run_jobs, matrix_tasks. rewrite written_app, length_csv_jobs. reflexivity.
  - intros p d Hin. apply elem_of_written in Hin as (i & r & resp & Hi & _).
    unfold csv_jobs in Hi. rewrite list_lookup_fmap in Hi.
    destruct (matrix_tasks T Q !! i) as [[q t]|]; [| discriminate].
    injection Hi as _ <-. exists q, t. reflexivity.
  - intros p d Hin. apply elem_of_written in Hin as (i & r & resp & Hi & _).
    unfold sdf_jobs in Hi. rewrite list_lookup_fmap in Hi.
    destruct (T !! i) as [t|]; [| discriminate].
    injection Hi as _ <-. exists t. reflexivity.
Qed.

Lemma summary_counts_are_writes_witness :
  reachable net_flaky 0 BASE_URL = true /\
  exists before fs',
    main net_flaky str_threshold (init_state ∅) =
      (Ret tt,
       {| sent := 32; fs := fs';
          trace := before ++
            map EvPrint (summary OUTPUT_DIR THRESHOLDS [50; 70; 95; 100] 12 3) |})
    /\ length (writes_of before) = 15%nat.
Proof.
  split; [reflexivity |].
  destruct (summary_counts_are_writes net_flaky str_threshold OUTPUT_DIR THRESHOLDS
              [50; 70; 95; 100] ∅ eq_refl) as (before & fs' & Hrun & Hw & _).
  exists before, fs'. split; [exact Hrun |]. rewrite Hw. vm_compute. reflexivity.
Defined.
